(** * Botpress: carousel renderer, NLU server routes and the training widget

    A shallow embedding of three pieces of the repository:
    - the built-in carousel content type ([render], [renderElement]),
    - the NLU server routes [POST /train], [GET /train/:modelId] and
      [POST /predict/:modelId],
    - the [TrainNow] React component, as a machine over its state hooks.

    JavaScript values are kept as a small inductive type; objects are
    association lists in property order, so that an object literal of the
    source is an object literal of the model. *)

From Stdlib Require Import String Ascii List ZArith Bool Lia DecimalString.
Import ListNotations.
Open Scope string_scope.
Set Warnings "-register-all".

(** ** JavaScript values *)

(** The values that flow through the code below.  Numbers that occur are
    integers (a progress of [1], an HTTP status). *)
Inductive jsval : Type :=
| JUndefined
| JNull
| JBool (b : bool)
| JNum (n : Z)
| JStr (s : string)
| JArr (elems : list jsval)
| JObj (props : list (string * jsval)).

(** ToBoolean. *)
Definition truthy (v : jsval) : bool :=
  match v with
  | JUndefined | JNull => false
  | JBool b => b
  | JNum n => negb (Z.eqb n 0)
  | JStr s => negb (String.eqb s EmptyString)
  | JArr _ | JObj _ => true
  end.

(** Reading a property of an object held as an association list (the keys
    of an object are distinct); an absent key reads [undefined]. *)
Fixpoint lookup (k : string) (props : list (string * jsval)) : jsval :=
  match props with
  | [] => JUndefined
  | (k', v) :: rest => if String.eqb k k' then v else lookup k rest
  end.

(** [v.k]: property access on a value; primitives and arrays have none of
    the keys used here. *)
Definition get (k : string) (v : jsval) : jsval :=
  match v with
  | JObj props => lookup k props
  | _ => JUndefined
  end.

(** [a ?? b] *)
Definition nullish (a b : jsval) : jsval :=
  match a with
  | JUndefined | JNull => b
  | _ => a
  end.

(** ** Exceptions *)

(** A thrown [Error]; only its [message] is ever read. *)
Inductive exn : Type :=
| Error (message : string).

Definition message (e : exn) : string :=
  match e with Error m => m end.

Inductive result (A : Type) : Type :=
| Ok (a : A)
| Throw (e : exn).
Arguments Ok {A} a.
Arguments Throw {A} e.

(** [Array.prototype.map] with a callback that may throw: elements are
    visited left to right and the first exception leaves the loop. *)
Fixpoint map_throwing {A B} (f : A -> result B) (l : list A) : result (list B) :=
  match l with
  | [] => Ok []
  | x :: rest =>
      match f x with
      | Throw e => Throw e
      | Ok y =>
          match map_throwing f rest with
          | Throw e => Throw e
          | Ok ys => Ok (y :: ys)
          end
      end
  end.

(** ** [String.prototype.replace] with a string pattern *)

(** GetSubstitution for a string pattern: there are no captures, so only
    [$$], [$&], [$`] and [$'] are special in the replacement text; every
    other [$] stands for itself. *)
Fixpoint getSubstitution (matched before after replacement : string) : string :=
  match replacement with
  | EmptyString => EmptyString
  | String c rest =>
      if Ascii.eqb c "$"%char then
        match rest with
        | String d rest' =>
            if Ascii.eqb d "$"%char then
              String "$"%char (getSubstitution matched before after rest')
            else if Ascii.eqb d "&"%char then
              matched ++ getSubstitution matched before after rest'
            else if Ascii.eqb d "`"%char then
              before ++ getSubstitution matched before after rest'
            else if Ascii.eqb d "'"%char then
              after ++ getSubstitution matched before after rest'
            else String c (getSubstitution matched before after rest)
        | EmptyString => String c EmptyString
        end
      else String c (getSubstitution matched before after rest)
  end.

(** [s.replace(pattern, replacement)]: the first occurrence only. *)
Definition replace (pattern replacement s : string) : string :=
  match String.index 0 pattern s with
  | None => s
  | Some pos =>
      let before := String.substring 0 pos s in
      let after :=
        String.substring (pos + String.length pattern)
          (String.length s - (pos + String.length pattern)) s in
      before ++ getSubstitution pattern before after replacement ++ after
  end.

(** ** The carousel content type *)

Module Action.
(** One button of a card, typed as the card schema declares it: [action]
    is the kind, [url] is an optional string, the other fields are
    passed through untouched. *)
Record t : Type := mk {
  action : string;
  title : jsval;
  text : jsval;
  url : option string;
  payload : jsval
}.
End Action.

Module Card.
Record t : Type := mk {
  title : jsval;
  image : option string;
  subtitle : jsval;
  actions : option (list Action.t)
}.
End Card.

Module Data.
Record t : Type := mk {
  typing : jsval;
  collectFeedback : jsval;
  BOT_URL : string;
  items : list Card.t
}.
End Data.

Module Carousel.

(** [a.url && a.url.replace('BOT_URL', data.BOT_URL)] *)
Definition renderUrl (data : Data.t) (u : option string) : jsval :=
  match u with
  | None => JUndefined
  | Some s =>
      if String.eqb s EmptyString then JStr s
      else JStr (replace "BOT_URL" (Data.BOT_URL data) s)
  end.

(** The double quote character of the error message. *)
Definition dquote : string := String (Ascii.ascii_of_nat 34) EmptyString.

Definition unsupported (kind : string) : exn :=
  Error ("Webchat carousel does not support " ++ dquote ++ kind
           ++ dquote ++ " action-buttons at the moment").

(** The callback of [(card.actions || []).map(a => ...)]. *)
Definition renderButton (data : Data.t) (a : Action.t) : result jsval :=
  if String.eqb (Action.action a) "Say something" then
    Ok (JObj [("type", JStr "say_something");
              ("title", Action.title a);
              ("text", Action.text a)])
  else if String.eqb (Action.action a) "Open URL" then
    Ok (JObj [("type", JStr "open_url");
              ("title", Action.title a);
              ("url", renderUrl data (Action.url a))])
  else if String.eqb (Action.action a) "Postback" then
    Ok (JObj [("type", JStr "postback");
              ("title", Action.title a);
              ("payload", Action.payload a)])
  else Throw (unsupported (Action.action a)).

(** [card.image ? `${data.BOT_URL}${card.image}` : null] *)
Definition renderPicture (data : Data.t) (img : option string) : jsval :=
  match img with
  | None => JNull
  | Some s =>
      if String.eqb s EmptyString then JNull
      else JStr (Data.BOT_URL data ++ s)
  end.

(** [card.actions || []] *)
Definition actionsOrEmpty (card : Card.t) : list Action.t :=
  match Card.actions card with
  | Some l => l
  | None => []
  end.

(** The callback of [data.items.map(card => ...)]. *)
Definition renderCard (data : Data.t) (card : Card.t) : result jsval :=
  match map_throwing (renderButton data) (actionsOrEmpty card) with
  | Throw e => Throw e
  | Ok buttons =>
      Ok (JObj [("title", Card.title card);
                ("picture", renderPicture data (Card.image card));
                ("subtitle", Card.subtitle card);
                ("buttons", JArr buttons)])
  end.

Definition typingEvents (data : Data.t) : list jsval :=
  if truthy (Data.typing data)
  then [JObj [("type", JStr "typing"); ("value", Data.typing data)]]
  else [].

Definition render (data : Data.t) : result (list jsval) :=
  let events := typingEvents data in
  match map_throwing (renderCard data) (Data.items data) with
  | Throw e => Throw e
  | Ok elements =>
      Ok (events ++
          [JObj [("text", JStr " ");
                 ("type", JStr "carousel");
                 ("collectFeedback", Data.collectFeedback data);
                 ("elements", JArr elements)]])%list
  end.

Definition templatedChannels : list string :=
  ["web"; "slack"; "teams"; "messenger"; "telegram"; "twilio"].

(** [Array.prototype.includes] on strings. *)
Definition includes (l : list string) (x : string) : bool :=
  existsb (String.eqb x) l.

Section RenderElement.
(** [base.renderer] lives in the module [./_base]: it is a parameter of
    [renderElement]. *)
Variable base_renderer : Data.t -> string -> result (list jsval).

Definition renderElement (data : Data.t) (channel : string)
  : result (list jsval) :=
  if includes templatedChannels channel
  then base_renderer data "carousel"
  else render data.
End RenderElement.

End Carousel.

(** ** The NLU server routes *)

Module NLUServer.

(** [NLU.Model] comes from the SDK typings; the routes read only its
    [languageCode], the rest is carried as one opaque value. *)
Record Model : Type := {
  languageCode : string;
  modelData : jsval
}.

(** [TrainInput], the value [validate] resolves to.  [topics] lists the
    own properties of the object in the order [Object.values] walks them,
    each one an array of intents. *)
Record TrainInput : Type := {
  topics : list (string * list jsval);
  entities : list jsval;
  language : string;
  password : jsval;
  seed : jsval
}.

Record ValidateOptions : Type := { stripUnknown : bool }.

(** How the promise of a call that is not awaited settles later on. *)
Inductive settled : Type :=
| Fulfilled
| Rejected (e : exn).

(** The request as express hands it over: [req.params.modelId] and the
    body left by [bodyParser.json]. *)
Record Request : Type := {
  modelId : string;
  body : jsval
}.

(** What was sent: [res.status(c).send(b)]; a bare [res.send] is 200. *)
Record Response : Type := {
  status : Z;
  sent : jsval
}.

(** The calls to the stateful collaborators, in the order made. *)
Inductive Call : Type :=
| GetTrainingSession (modelId : string)
| GetModel (modelId : string) (password : jsval)
| LoadModel (model : Model)
| Predict (sentence : jsval) (includedContexts : list string) (language : string)
| UnloadModel (language : string)
| Train (modelId : string) (password : jsval) (intents entities : list jsval)
        (language : string).

(** The collaborators ([validate] of joi, the engine, the model service,
    the train service and the train session service) are modules of their
    own: they are taken as parameters, over a state [S] of their own.
    [validate], [computeModelHash] and [makeModelId] only compute; the
    others read and change [S].  Each may throw (or, awaited, reject),
    except [train], an async function, which hands back a promise. *)
Record Services (S : Type) : Type := {
  validate : jsval -> ValidateOptions -> result TrainInput;
  computeModelHash : list jsval -> list jsval -> string -> result string;
  makeModelId : string -> string -> jsval -> result string;
  train : string -> jsval -> list jsval -> list jsval -> string -> S -> settled * S;
  getTrainingSession : string -> S -> result (option jsval) * S;
  getModel : string -> jsval -> S -> result (option Model) * S;
  loadModel : Model -> S -> result unit * S;
  predict : jsval -> list string -> string -> S -> result jsval * S;
  unloadModel : string -> S -> result unit * S
}.
Arguments validate {S}.
Arguments computeModelHash {S}.
Arguments makeModelId {S}.
Arguments train {S}.
Arguments getTrainingSession {S}.
Arguments getModel {S}.
Arguments loadModel {S}.
Arguments predict {S}.
Arguments unloadModel {S}.

Section Routes.
Context {S : Type}.
Variable svc : Services S.

(** The collaborators' state and the log of calls made so far. *)
Record World : Type := {
  state : S;
  calls : list Call
}.

(** Computations of a handler: they change the world and either return
    or throw; what a call did before it threw stays done. *)
Definition M (A : Type) : Type := World -> result A * World.

Definition ret {A} (a : A) : M A := fun w => (Ok a, w).

Definition bind {A B} (m : M A) (k : A -> M B) : M B :=
  fun w =>
    match m w with
    | (Ok a, w') => k a w'
    | (Throw e, w') => (Throw e, w')
    end.

(** [try { m } catch (err) { h err }] *)
Definition try_catch {A} (m : M A) (h : exn -> M A) : M A :=
  fun w =>
    match m w with
    | (Ok a, w') => (Ok a, w')
    | (Throw e, w') => h e w'
    end.

(** A computation that touches no state. *)
Definition pure {A} (r : result A) : M A := fun w => (r, w).

(** A logged call to a stateful collaborator. *)
Definition call {A} (c : Call) (op : S -> result A * S) : M A :=
  fun w =>
    let (r, s') := op (state w) in
    (r, {| state := s'; calls := calls w ++ [c] |}).

(** A call whose promise is dropped: only what it did before returning
    is seen, never how it settles. *)
Definition call_detached (c : Call) (op : S -> settled * S) : M unit :=
  fun w =>
    let (_, s') := op (state w) in
    (Ok tt, {| state := s'; calls := calls w ++ [c] |}).

Notation "x <- m ;; k" := (bind m (fun x => k))
  (at level 61, m at next level, right associativity).

Definition send (code : Z) (b : jsval) : Response :=
  {| status := code; sent := b |}.

Definition success (key : string) (v : jsval) : jsval :=
  JObj [("success", JBool true); (key, v)].

Definition failure (msg : string) : jsval :=
  JObj [("success", JBool false); ("error", JStr msg)].

(** [router.post('/train', ...)] *)
Definition postTrain (req : Request) : M Response :=
  try_catch
    (input <- pure (validate svc (body req) {| stripUnknown := true |}) ;;
     let intents := flat_map snd (topics input) in
     modelHash <- pure (computeModelHash svc intents (entities input)
                          (language input)) ;;
     modelId <- pure (makeModelId svc modelHash (language input) (seed input)) ;;
     _ <- call_detached
            (Train modelId (password input) intents (entities input)
               (language input))
            (train svc modelId (password input) intents (entities input)
               (language input)) ;;
     ret (send 200 (success "modelId" (JStr modelId))))
    (fun err => ret (send 500 (failure (message err)))).

(** The session made up for a persisted model. *)
Definition doneSession (model : Model) : jsval :=
  JObj [("status", JStr "done");
        ("progress", JNum 1);
        ("language", JStr (languageCode model))].

(** [router.get('/train/:modelId', ...)] *)
Definition getTrain (req : Request) : M Response :=
  try_catch
    (let password := get "password" (body req) in
     session <- call (GetTrainingSession (modelId req))
                  (getTrainingSession svc (modelId req)) ;;
     match session with
     | Some live => ret (send 200 (success "session" live))
     | None =>
         let pw := nullish password (JStr EmptyString) in
         model <- call (GetModel (modelId req) pw)
                    (getModel svc (modelId req) pw) ;;
         match model with
         | None =>
             ret (send 404
                    (failure ("no model or training could be found for modelId: "
                                ++ modelId req)))
         | Some m => ret (send 200 (success "session" (doneSession m)))
         end
     end)
    (fun err => ret (send 500 (failure (message err)))).

(** [router.post('/predict/:modelId', ...)] *)
Definition postPredict (req : Request) : M Response :=
  try_catch
    (let sentence := get "sentence" (body req) in
     let pw := nullish (get "password" (body req)) (JStr EmptyString) in
     model <- call (GetModel (modelId req) pw)
                (getModel svc (modelId req) pw) ;;
     match model with
     | Some m =>
         _ <- call (LoadModel m) (loadModel svc m) ;;
         prediction <- call (Predict sentence [] (languageCode m))
                         (predict svc sentence [] (languageCode m)) ;;
         _ <- call (UnloadModel (languageCode m))
                (unloadModel svc (languageCode m)) ;;
         ret (send 200 (success "prediction" prediction))
     | None =>
         ret (send 404
                (failure ("modelId " ++ modelId req ++ " can't be found")))
     end)
    (fun err => ret (send 404 (failure (message err)))).

End Routes.

End NLUServer.

(** ** The training widget *)

Module TrainNow.

(** The three [useState] hooks of the component. *)
Record State : Type := {
  loading : bool;
  training : bool;
  cancelling : bool
}.

(** The state of the first render: [useState(true)], [useState(false)],
    [useState(false)]. *)
Definition initial : State :=
  {| loading := true; training := false; cancelling := false |}.

Record TrainSession : Type := {
  status : string;
  progress : jsval;
  language : string
}.

(** What arrives on the ['statusbar.event'] topic. *)
Record StatusbarEvent : Type := {
  type : string;
  trainSession : TrainSession
}.

Definition isDoneOrCancelled (event : StatusbarEvent) : bool :=
  String.eqb (status (trainSession event)) "done"
  || String.eqb (status (trainSession event)) "canceled".

(** Requests sent through the [api] prop. *)
Inductive ApiCall : Type :=
| ApiIsTraining
| ApiTrain
| ApiCancelTraining.

(** What happens to the mounted component.  An [await] splits a handler
    in two: the part run at once and the part run when the promise
    resolves. *)
Inductive Action : Type :=
| Mounted                              (* fetchIsTraining starts *)
| IsTrainingResolved (isTraining : bool)
| TrainNowClicked                      (* trainNow *)
| CancelClicked                        (* cancelTraining, up to its await *)
| CancelResolved                       (* cancelTraining, after its await *)
| Statusbar (event : StatusbarEvent).  (* the eventBus listener *)

Definition setLoading (b : bool) (s : State) : State :=
  {| loading := b; training := training s; cancelling := cancelling s |}.

Definition setTraining (b : bool) (s : State) : State :=
  {| loading := loading s; training := b; cancelling := cancelling s |}.

Definition setCancelling (b : bool) (s : State) : State :=
  {| loading := loading s; training := training s; cancelling := b |}.

Definition step (s : State) (a : Action) : State * list ApiCall :=
  match a with
  | Mounted => (setLoading true s, [ApiIsTraining])
  | IsTrainingResolved isTraining =>
      (setLoading false (setTraining isTraining s), [])
  | TrainNowClicked => (setTraining true s, [ApiTrain])
  | CancelClicked => (s, [ApiCancelTraining])
  | CancelResolved => (setCancelling true s, [])
  | Statusbar event =>
      if String.eqb (type event) "nlu" && isDoneOrCancelled event
      then (setCancelling false (setTraining false s), [])
      else (s, [])
  end.

(** The state after a sequence of actions. *)
Fixpoint run (s : State) (l : list Action) : State :=
  match l with
  | [] => s
  | a :: rest => run (fst (step s a)) rest
  end.

Inductive Handler : Type :=
| trainNow
| cancelTraining.

(** The props of the one [Button] the component returns; [disabled] is
    absent on the train button. *)
Record Button : Type := {
  disabled : option bool;
  btnLoading : bool;
  onClick : Handler;
  label : string
}.

Definition render (autoTrain : bool) (s : State) : Button :=
  if training s then
    {| disabled := Some (cancelling s);
       btnLoading := loading s;
       onClick := cancelTraining;
       label := "module.nlu.cancelTraining" |}
  else
    {| disabled := None;
       btnLoading := loading s;
       onClick := trainNow;
       label := if autoTrain then "module.nlu.retrainAll"
                else "module.nlu.trainNow" |}.

End TrainNow.

(** ** The carousel renderer: what the specification speaks of *)

Module CarouselSpec.
Import Carousel.

(** The three action kinds the web chat carousel knows. *)
Definition supported (a : Action.t) : Prop :=
  Action.action a = "Say something"
  \/ Action.action a = "Open URL"
  \/ Action.action a = "Postback".

(** The button objects of the specification, one fixed shape per kind:
    the key lists are [type, title, text], [type, title, url] and
    [type, title, payload]. *)
Inductive buttonShape (a : Action.t) : jsval -> Prop :=
| shape_say :
    Action.action a = "Say something" ->
    buttonShape a (JObj [("type", JStr "say_something");
                         ("title", Action.title a);
                         ("text", Action.text a)])
| shape_url (u : jsval) :
    Action.action a = "Open URL" ->
    buttonShape a (JObj [("type", JStr "open_url");
                         ("title", Action.title a);
                         ("url", u)])
| shape_postback :
    Action.action a = "Postback" ->
    buttonShape a (JObj [("type", JStr "postback");
                         ("title", Action.title a);
                         ("payload", Action.payload a)]).

(** Every action of every card of [data] is of a supported kind. *)
Definition allSupported (data : Data.t) : Prop :=
  forall card a,
    In card (Data.items data) -> In a (actionsOrEmpty card) -> supported a.

(** An element of the carousel whose buttons are those of [card], one per
    action and in the same order. *)
Definition elementOf (card : Card.t) (el : jsval) : Prop :=
  exists buttons,
    get "buttons" el = JArr buttons
    /\ get "title" el = Card.title card
    /\ Forall2 buttonShape (actionsOrEmpty card) buttons.

Definition carouselEvent (data : Data.t) (elements : list jsval) : jsval :=
  JObj [("text", JStr " ");
        ("type", JStr "carousel");
        ("collectFeedback", Data.collectFeedback data);
        ("elements", JArr elements)].

End CarouselSpec.

(** ** Sample inputs *)

Module Samples.

(** [{title: 'A', actions: []}] *)
Definition cardA : Card.t :=
  {| Card.title := JStr "A"; Card.image := None;
     Card.subtitle := JUndefined; Card.actions := Some [] |}.

(** [{items: [{title: 'A', actions: []}]}] *)
Definition dataA : Data.t :=
  {| Data.typing := JUndefined; Data.collectFeedback := JUndefined;
     Data.BOT_URL := "http://localhost:3000"; Data.items := [cardA] |}.

Definition say : Action.t :=
  {| Action.action := "Say something"; Action.title := JStr "Hi";
     Action.text := JStr "hello"; Action.url := None;
     Action.payload := JUndefined |}.

Definition openUrl : Action.t :=
  {| Action.action := "Open URL"; Action.title := JStr "Docs";
     Action.text := JUndefined; Action.url := Some "BOT_URL/docs";
     Action.payload := JUndefined |}.

Definition postback : Action.t :=
  {| Action.action := "Postback"; Action.title := JStr "Buy";
     Action.text := JUndefined; Action.url := None;
     Action.payload := JStr "BUY_1" |}.

Definition call : Action.t :=
  {| Action.action := "Call"; Action.title := JStr "Phone";
     Action.text := JUndefined; Action.url := None;
     Action.payload := JUndefined |}.

Definition cardOf (l : list Action.t) : Card.t :=
  {| Card.title := JStr "B"; Card.image := Some "/img.png";
     Card.subtitle := JStr "sub"; Card.actions := Some l |}.

(** A carousel of two cards with the typing indicator on. *)
Definition dataTyping : Data.t :=
  {| Data.typing := JBool true; Data.collectFeedback := JBool false;
     Data.BOT_URL := "http://localhost:3000";
     Data.items := [cardOf [say; openUrl]; cardOf [postback]] |}.

(** The same with an action kind the web chat does not know. *)
Definition dataCall : Data.t :=
  {| Data.typing := JBool true; Data.collectFeedback := JBool false;
     Data.BOT_URL := "http://localhost:3000";
     Data.items := [cardOf [say]; cardOf [postback; call; openUrl]] |}.

(** A stand-in for [base.renderer]. *)
Definition templated (data : Data.t) (kind : string) : result (list jsval) :=
  Ok [JObj [("type", JStr kind); ("templated", JBool true)]].

End Samples.

(** ** The NLU server routes: what the specification speaks of *)

Module NLUServerSpec.
Import NLUServer.

(** The same collaborators, with the promise of [train] settling as [o]:
    what [train] does before it returns is left as it is. *)
Definition settleTrain {S} (o : settled) (svc : Services S) : Services S :=
  {| validate := validate svc;
     computeModelHash := computeModelHash svc;
     makeModelId := makeModelId svc;
     train := fun id pw intents ents lang s =>
                (o, snd (train svc id pw intents ents lang s));
     getTrainingSession := getTrainingSession svc;
     getModel := getModel svc;
     loadModel := loadModel svc;
     predict := predict svc;
     unloadModel := unloadModel svc |}.

(** [sentence] and [password ?? ''] as the predict route reads them off
    the body. *)
Definition sentenceOf (req : Request) : jsval := get "sentence" (body req).

Definition passwordOf (req : Request) : jsval :=
  nullish (get "password" (body req)) (JStr EmptyString).

(** The calls of a prediction up to and including [engine.predict]. *)
Definition uptoPredict (req : Request) (m : Model) : list Call :=
  [GetModel (modelId req) (passwordOf req); LoadModel m;
   Predict (sentenceOf req) [] (languageCode m)].

(** The intents handed to the engine: [_.flatMap(Object.values(topics))]. *)
Definition intentsOfInput (input : TrainInput) : list jsval :=
  flat_map snd (topics input).

End NLUServerSpec.

(** ** Sample collaborators *)

Module ServerSamples.
Import NLUServer.

(** The state of the sample engine: the languages whose model is loaded. *)
Definition Loaded : Type := list string.

Definition intentsOf (v : jsval) : list jsval :=
  match v with
  | JArr l => l
  | _ => []
  end.

(** A schema check in the manner of [TrainInputCreateSchema]: language,
    topics and entities are required; only the five known fields are
    kept. *)
Definition sampleValidate (b : jsval) (o : ValidateOptions) : result TrainInput :=
  match get "language" b, get "topics" b, get "entities" b with
  | JStr l, JObj ts, JArr es =>
      Ok {| topics := map (fun p => (fst p, intentsOf (snd p))) ts;
            entities := es;
            language := l;
            password := get "password" b;
            seed := get "seed" b |}
  | _, _, _ => Throw (Error "invalid train input")
  end.

Definition tally (mark : string) (l : list jsval) : string :=
  String.concat EmptyString (map (fun _ => mark) l).

Definition sampleHash (intents ents : list jsval) (lang : string) : result string :=
  Ok (tally "i" intents ++ tally "e" ents ++ lang).

Definition seedText (v : jsval) : string :=
  match v with
  | JNum n => NilEmpty.string_of_int (Z.to_int n)
  | _ => "undefined"
  end.

(** An identifier that joins the three arguments the route passes to
    [makeModelId]: the hash, the language and the seed. *)
Definition sampleModelId (hash lang : string) (sd : jsval) : result string :=
  Ok (hash ++ "." ++ lang ++ "." ++ seedText sd).

Definition english : Model :=
  {| languageCode := "en"; modelData := JStr "weights" |}.

Definition liveSession : jsval :=
  JObj [("status", JStr "training"); ("progress", JNum 0);
        ("language", JStr "en")].

Definition sampleServices : Services Loaded :=
  {| validate := sampleValidate;
     computeModelHash := sampleHash;
     makeModelId := sampleModelId;
     train := fun _ _ _ _ _ s => (Rejected (Error "training failed"), s);
     getTrainingSession := fun id s =>
       (Ok (if String.eqb id "live" then Some liveSession else None), s);
     getModel := fun id pw s =>
       if String.eqb id "stored" then (Ok (Some english), s)
       else if String.eqb id "broken" then (Throw (Error "model is corrupted"), s)
       else (Ok None, s);
     loadModel := fun m s => (Ok tt, languageCode m :: s);
     predict := fun sentence _ lang s =>
       match sentence with
       | JStr t => (Ok (JObj [("intent", JStr "greet"); ("utterance", JStr t)]), s)
       | _ => (Throw (Error "sentence must be a string"), s)
       end;
     unloadModel := fun lang s =>
       (Ok tt, filter (fun l => negb (String.eqb l lang)) s) |}.

Definition fresh : World := {| state := @nil string; calls := [] |}.

Definition trainBody (sd : Z) : jsval :=
  JObj [("language", JStr "en");
        ("topics", JObj [("global", JArr [JStr "greet"; JStr "bye"])]);
        ("entities", JArr [JStr "city"]);
        ("seed", JNum sd)].

Definition trainRequest (sd : Z) : Request :=
  {| modelId := EmptyString; body := trainBody sd |}.

Definition predictRequest (id : string) (b : jsval) : Request :=
  {| modelId := id; body := b |}.

Definition hi : jsval := JObj [("sentence", JStr "hi")].

(** What [sampleValidate] makes of [trainBody sd]. *)
Definition validInput (sd : Z) : TrainInput :=
  {| topics := [("global", [JStr "greet"; JStr "bye"])];
     entities := [JStr "city"];
     language := "en";
     password := JUndefined;
     seed := JNum sd |}.

End ServerSamples.

(** ** The training widget: sample events *)

Module WidgetSamples.
Import TrainNow.

Definition nluEvent (st : string) : StatusbarEvent :=
  {| type := "nlu";
     trainSession := {| status := st; progress := JNum 1; language := "en" |} |}.

End WidgetSamples.

(** ** Texts for template literals *)

(** The decimal text of an array length. *)
Definition lengthText {A} (l : list A) : string :=
  NilEmpty.string_of_uint (Nat.to_uint (length l)).

(** ** The carousel content type: the preview text *)

Module CarouselPreview.

Section ComputePreviewText.
(** ToString of the engine, which the template literal applies to the
    title: a parameter; on a string it gives the string itself. *)
Variable ToString : jsval -> string.

(** [formData => formData.items &&
      `Carousel: (${formData.items.length}) ${formData.items[0].title}`];
    [items] is [None] when the form has none yet.  Reading [title] off
    the missing first card is a TypeError (the message is the engine's). *)
Definition computePreviewText (items : option (list Card.t)) : result jsval :=
  match items with
  | None => Ok JUndefined
  | Some l =>
      match l with
      | [] => Throw (Error "Cannot read property 'title' of undefined")
      | first :: _ =>
          Ok (JStr ("Carousel: (" ++ lengthText l ++ ") "
                      ++ ToString (Card.title first)))
      end
  end.
End ComputePreviewText.

End CarouselPreview.

(** ** The carousel renderer: the first action it cannot render *)

Module CarouselOrder.
Import Carousel.

Definition supportedb (a : Action.t) : bool :=
  String.eqb (Action.action a) "Say something"
  || String.eqb (Action.action a) "Open URL"
  || String.eqb (Action.action a) "Postback".

(** The actions of all cards in reading order: card by card, and within a
    card button by button. *)
Definition allActions (data : Data.t) : list Action.t :=
  flat_map actionsOrEmpty (Data.items data).

Definition firstUnsupported (data : Data.t) : option Action.t :=
  find (fun a => negb (supportedb a)) (allActions data).

(** No dollar sign in a text. *)
Fixpoint dollarFree (s : string) : bool :=
  match s with
  | EmptyString => true
  | String c rest => negb (Ascii.eqb c "$"%char) && dollarFree rest
  end.

(** What a rendered card looks like next to the card it comes from. *)
Definition cardFields (data : Data.t) (card : Card.t) (el : jsval) : Prop :=
  get "title" el = Card.title card
  /\ get "subtitle" el = Card.subtitle card
  /\ (Card.image card = None \/ Card.image card = Some EmptyString ->
      get "picture" el = JNull)
  /\ (forall img, Card.image card = Some img -> img <> EmptyString ->
      get "picture" el = JStr (Data.BOT_URL data ++ img))
  /\ exists buttons,
       get "buttons" el = JArr buttons
       /\ length buttons = length (actionsOrEmpty card).

End CarouselOrder.

(** ** The NLU server: the express application *)

Module NLUApp.

Record APIOptions : Type := {
  version : string;
  host : string;
  port : Z;
  modelDir : string;
  authToken : option string;
  limitWindow : string;
  limit : Z;
  adminToken : string
}.

(** What [app.use] is given, in the order given. *)
Inductive Middleware : Type :=
| Cors
| BodyParserJson (limit : string)
| PoweredBy                         (* the X-Powered-By header and the debug line *)
| Monitoring
| HandleUnexpectedError
| RateLimit (windowMs : Z) (max : Z) (message : string)
| AuthMiddleware (authToken adminToken : string).

Record App : Type := {
  stack : list Middleware;
  settings : list (string * jsval)
}.

(** [options.authToken?.length] *)
Definition hasAuthToken (options : APIOptions) : bool :=
  match authToken options with
  | Some t => negb (Nat.eqb (String.length t) 0)
  | None => false
  end.

Section CreateExpressApp.
(** [ms] of the library of that name, and [process.core_env.REVERSE_PROXY]. *)
Variable ms : string -> Z.
Variable REVERSE_PROXY : jsval.

Definition createExpressApp (options : APIOptions) : App :=
  let base :=
    [Cors; BodyParserJson "250kb"; PoweredBy; Monitoring; HandleUnexpectedError] in
  let trust :=
    if truthy REVERSE_PROXY then [("trust proxy", REVERSE_PROXY)] else [] in
  let limiter :=
    if Z.ltb 0 (limit options)
    then [RateLimit (ms (limitWindow options)) (limit options)
            "Too many requests, please slow down"]
    else [] in
  let auth :=
    match authToken options with
    | Some t =>
        if negb (Nat.eqb (String.length t) 0)
        then [AuthMiddleware t (adminToken options)]
        else []
    | None => []
    end in
  {| stack := (base ++ limiter ++ auth)%list; settings := trust |}.
End CreateExpressApp.

Definition isAuth (m : Middleware) : bool :=
  match m with AuthMiddleware _ _ => true | _ => false end.

Definition isRateLimit (m : Middleware) : bool :=
  match m with RateLimit _ _ _ => true | _ => false end.

End NLUApp.

(** ** The dropdown *)

Module Dropdown.

Record Option : Type := {
  label : string;
  value : jsval
}.

(** The strings looked at by the filter are taken to be ASCII; [isAscii]
    says so of a string. *)
Fixpoint isAscii (s : string) : bool :=
  match s with
  | EmptyString => true
  | String c rest => Nat.ltb (nat_of_ascii c) 128 && isAscii rest
  end.

Definition isUpper (c : ascii) : bool :=
  Nat.leb 65 (nat_of_ascii c) && Nat.leb (nat_of_ascii c) 90.

(** [String.prototype.toLowerCase] on an ASCII string: the letters A to Z
    become a to z and nothing else changes. *)
Definition lowerChar (c : ascii) : ascii :=
  let n := nat_of_ascii c in
  if Nat.leb 65 n && Nat.leb n 90 then ascii_of_nat (n + 32) else c.

Fixpoint toLowerCase (s : string) : string :=
  match s with
  | EmptyString => EmptyString
  | String c rest => String (lowerChar c) (toLowerCase rest)
  end.

(** Two characters that are the same, or the same letter in the two
    cases; said without [toLowerCase]. *)
Definition sameLetter (c d : ascii) : bool :=
  Ascii.eqb c d
  || (isUpper c && Ascii.eqb d (ascii_of_nat (nat_of_ascii c + 32)))
  || (isUpper d && Ascii.eqb c (ascii_of_nat (nat_of_ascii d + 32))).

(** Two texts of the same length that agree letter by letter up to case. *)
Fixpoint sameLetters (s t : string) : bool :=
  match s, t with
  | EmptyString, EmptyString => true
  | String c s', String d t' => sameLetter c d && sameLetters s' t'
  | _, _ => false
  end.

(** [haystack.indexOf(needle) > -1] *)
Definition occursIn (needle haystack : string) : bool :=
  match String.index 0 needle haystack with
  | Some _ => true
  | None => false
  end.

Section FilterOptions.
(** ToString of the engine, which the template literal applies to
    [option.value]: a parameter. *)
Variable ToString : jsval -> string.

(** [`${option.label.toLowerCase()} ${option.value}`
       .indexOf(query.toLowerCase()) > -1] *)
Definition filterOptions (query : string) (option : Option) : bool :=
  occursIn (toLowerCase query)
    (toLowerCase (label option) ++ " " ++ ToString (value option)).
End FilterOptions.





(** The [confirmChange] prop; [callback] tells whether the optional
    callback is given. *)
Record ConfirmChange : Type := {
  message : string;
  acceptLabel : option string;
  callback : bool
}.

(** What [onItemSelect] does to the outside, in order.  The functions
    passed as props are taken to return normally. *)
Inductive Effect : Type :=
| CallbackCalled (isOpen : bool)
| ConfirmDialogOpened (message : string) (acceptLabel : option string)
| OnChangeCalled (option : Option).

(** [confirmChange.callback?.(b)] *)
Definition notify (c : ConfirmChange) (b : bool) : list Effect :=
  if callback c then [CallbackCalled b] else [].

(** [onItemSelect]; [answer] is how the promise of [confirmDialog]
    settles: resolved to the user's choice, or rejected. *)
Definition onItemSelect (confirmChange : option ConfirmChange)
    (answer : result bool) (option : Option) : result unit * list Effect :=
  match confirmChange with
  | Some c =>
      let opened :=
        (notify c true ++ [ConfirmDialogOpened (message c) (acceptLabel c)])%list in
      match answer with
      | Throw e => (Throw e, opened)
      | Ok true =>
          (Ok tt, (opened ++ notify c false ++ [OnChangeCalled option])%list)
      | Ok false => (Ok tt, (opened ++ notify c false)%list)
      end
  | None => (Ok tt, [OnChangeCalled option])
  end.

Definition isOnChange (e : Effect) : bool :=
  match e with OnChangeCalled _ => true | _ => false end.

End Dropdown.

(** ** The training widget: events that reset it *)

Module TrainNowSpec.
Import TrainNow.

(** A statusbar event of type 'nlu' whose session is done or canceled. *)
Definition resetting (a : Action) : bool :=
  match a with
  | Statusbar event => String.eqb (type event) "nlu" && isDoneOrCancelled event
  | _ => false
  end.

End TrainNowSpec.

(** ** The NLU server routes: kinds of calls *)

Module NLUServerCalls.
Import NLUServer.

(** The calls that only look something up. *)
Definition isLookup (c : Call) : bool :=
  match c with
  | GetTrainingSession _ | GetModel _ _ => true
  | _ => false
  end.

Definition isTrain (c : Call) : bool :=
  match c with
  | Train _ _ _ _ _ => true
  | _ => false
  end.

(** A password that is absent, [null] or the empty string. *)
Definition noPassword (v : jsval) : Prop :=
  v = JUndefined \/ v = JNull \/ v = JStr EmptyString.

End NLUServerCalls.

(** ** More sample inputs *)

Module MoreSamples.

(** A bot URL with a doubled dollar sign, and one with [$&]. *)
Definition dataDollar : Data.t :=
  {| Data.typing := JUndefined; Data.collectFeedback := JUndefined;
     Data.BOT_URL := "http://h/$$x"; Data.items := [] |}.

Definition dataAmpersand : Data.t :=
  {| Data.typing := JUndefined; Data.collectFeedback := JUndefined;
     Data.BOT_URL := "http://h/$&"; Data.items := [] |}.

Definition docsLink : Action.t :=
  {| Action.action := "Open URL"; Action.title := JStr "Docs";
     Action.text := JUndefined; Action.url := Some ("BOT_URL" ++ "/docs?next=BOT_URL");
     Action.payload := JUndefined |}.

Definition secured : NLUApp.APIOptions :=
  {| NLUApp.version := "1.0.0"; NLUApp.host := "localhost"; NLUApp.port := 3200;
     NLUApp.modelDir := "/models"; NLUApp.authToken := Some "secret";
     NLUApp.limitWindow := "1h"; NLUApp.limit := 100;
     NLUApp.adminToken := "admin" |}.

Definition open : NLUApp.APIOptions :=
  {| NLUApp.version := "1.0.0"; NLUApp.host := "0.0.0.0"; NLUApp.port := 3200;
     NLUApp.modelDir := "/models"; NLUApp.authToken := Some EmptyString;
     NLUApp.limitWindow := "1h"; NLUApp.limit := 0;
     NLUApp.adminToken := "admin" |}.

Definition hourly (window : string) : Z := 3600000.

(** ToString on the values the samples hold: strings, [undefined], [null]
    and booleans, and plain objects. *)
Definition sampleToString (v : jsval) : string :=
  match v with
  | JStr s => s
  | JUndefined => "undefined"
  | JNull => "null"
  | JBool b => if b then "true" else "false"
  | _ => "[object Object]"
  end.

Definition french : Dropdown.Option :=
  {| Dropdown.label := "French"; Dropdown.value := JStr "fr" |}.

Definition english : Dropdown.Option :=
  {| Dropdown.label := "English"; Dropdown.value := JStr "en" |}.



Definition confirm : Dropdown.ConfirmChange :=
  {| Dropdown.message := "Change the language?";
     Dropdown.acceptLabel := Some "Change";
     Dropdown.callback := true |}.

End MoreSamples.

(** ** Facts about [map_throwing] *)

Section MapThrowing.
Context {A B : Type}.
Variable f : A -> result B.

Lemma map_throwing_ok (P : A -> B -> Prop) (l : list A) :
  (forall x, In x l -> exists y, f x = Ok y /\ P x y) ->
  exists ys, map_throwing f l = Ok ys /\ Forall2 P l ys.
Proof.
  induction l as [|x rest IH]; intros Hall.
  - exists []. split; [reflexivity | constructor].
  - destruct (Hall x (or_introl eq_refl)) as [y [Hy HP]].
    destruct IH as [ys [Hys HF]].
    { intros x' Hin. apply Hall. now right. }
    exists (y :: ys). simpl. rewrite Hy, Hys.
    split; [reflexivity | now constructor].
Qed.

(** A throw of the loop is the throw of one of its elements. *)
Lemma map_throwing_throw_inv (l : list A) (e : exn) :
  map_throwing f l = Throw e -> exists x, In x l /\ f x = Throw e.
Proof.
  induction l as [|x rest IH]; simpl; [discriminate|].
  destruct (f x) as [y|e'] eqn:Hx.
  - destruct (map_throwing f rest) as [ys|e'']; [discriminate|].
    intros Heq. injection Heq as ->.
    destruct (IH eq_refl) as [x' [Hin Hx']].
    exists x'. split; [now right | assumption].
  - intros Heq. injection Heq as ->.
    exists x. split; [now left | assumption].
Qed.

(** One throwing element is enough to leave the loop by a throw. *)
Lemma map_throwing_throw (l : list A) (x : A) (e : exn) :
  In x l -> f x = Throw e -> exists e', map_throwing f l = Throw e'.
Proof.
  induction l as [|x' rest IH]; simpl; [contradiction|].
  intros [-> | Hin] Hx.
  - rewrite Hx. now exists e.
  - destruct (f x') as [y|e1]; [|now exists e1].
    destruct (IH Hin Hx) as [e' ->]. now exists e'.
Qed.

Lemma map_throwing_length (l : list A) (ys : list B) :
  map_throwing f l = Ok ys -> length ys = length l.
Proof.
  revert ys. induction l as [|x rest IH]; simpl; intros ys.
  - intros [= <-]. reflexivity.
  - destruct (f x) as [y|]; [|discriminate].
    destruct (map_throwing f rest) as [ys'|]; [|discriminate].
    intros [= <-]. simpl. f_equal. now apply IH.
Qed.
End MapThrowing.

(** ** The carousel renderer: proofs *)

Module CarouselProofs.
Import Carousel CarouselSpec.

Lemma renderButton_supported data a :
  supported a -> exists b, renderButton data a = Ok b /\ buttonShape a b.
Proof.
  unfold renderButton. intros [H | [H | H]]; rewrite H; simpl;
    eexists; (split; [reflexivity|]).
  - now apply shape_say.
  - now apply shape_url.
  - now apply shape_postback.
Qed.

Lemma renderButton_unsupported data a :
  ~ supported a -> renderButton data a = Throw (unsupported (Action.action a)).
Proof.
  unfold supported, renderButton. intros Hn.
  destruct (String.eqb_spec (Action.action a) "Say something") as [E|_];
    [now exfalso; apply Hn; left|].
  destruct (String.eqb_spec (Action.action a) "Open URL") as [E|_];
    [now exfalso; apply Hn; right; left|].
  destruct (String.eqb_spec (Action.action a) "Postback") as [E|_];
    [now exfalso; apply Hn; right; right|].
  reflexivity.
Qed.

Lemma supported_dec a : supported a \/ ~ supported a.
Proof.
  unfold supported.
  destruct (String.eqb_spec (Action.action a) "Say something"); [tauto|].
  destruct (String.eqb_spec (Action.action a) "Open URL"); [tauto|].
  destruct (String.eqb_spec (Action.action a) "Postback"); tauto.
Qed.

(** The only exception [renderButton] throws is the one of an unsupported
    kind. *)
Lemma renderButton_throw_inv data a e :
  renderButton data a = Throw e ->
  ~ supported a /\ e = unsupported (Action.action a).
Proof.
  intros H. destruct (supported_dec a) as [Hs|Hn].
  - destruct (renderButton_supported data a Hs) as [b [Hb _]]. congruence.
  - split; [assumption|].
    rewrite (renderButton_unsupported data a Hn) in H. congruence.
Qed.

Lemma renderCard_supported data card :
  (forall a, In a (actionsOrEmpty card) -> supported a) ->
  exists el, renderCard data card = Ok el /\ elementOf card el.
Proof.
  intros Hall. unfold renderCard.
  destruct (map_throwing_ok (renderButton data) buttonShape (actionsOrEmpty card))
    as [buttons [Hb HF]].
  { intros a Hin. apply renderButton_supported. now apply Hall. }
  rewrite Hb. eexists. split; [reflexivity|].
  exists buttons. repeat split; assumption.
Qed.

Lemma renderCard_throw_inv data card e :
  renderCard data card = Throw e ->
  exists a, In a (actionsOrEmpty card) /\ renderButton data a = Throw e.
Proof.
  unfold renderCard.
  destruct (map_throwing (renderButton data) (actionsOrEmpty card)) eqn:Hm;
    [discriminate|].
  intros [= ->]. now apply map_throwing_throw_inv.
Qed.

Lemma renderCard_unsupported data card a :
  In a (actionsOrEmpty card) -> ~ supported a ->
  exists e, renderCard data card = Throw e.
Proof.
  intros Hin Hn. unfold renderCard.
  destruct (map_throwing_throw (renderButton data) (actionsOrEmpty card) a
              (unsupported (Action.action a)) Hin
              (renderButton_unsupported data a Hn)) as [e ->].
  now exists e.
Qed.

(** [render] returns as soon as every action is supported. *)
Lemma render_supported data :
  allSupported data ->
  exists elements,
    render data = Ok (typingEvents data ++ [carouselEvent data elements])%list
    /\ Forall2 elementOf (Data.items data) elements.
Proof.
  intros Hall. unfold render.
  destruct (map_throwing_ok (renderCard data) elementOf (Data.items data))
    as [els [Hels HF]].
  { intros card Hin. apply renderCard_supported.
    intros a Ha. now apply (Hall card a). }
  rewrite Hels. exists els. split; [reflexivity | assumption].
Qed.

(** Whatever [render] returns is the typing events followed by exactly one
    carousel event. *)
Lemma render_ok_inv data evs :
  render data = Ok evs ->
  exists elements,
    evs = (typingEvents data ++ [carouselEvent data elements])%list
    /\ map_throwing (renderCard data) (Data.items data) = Ok elements.
Proof.
  unfold render.
  destruct (map_throwing (renderCard data) (Data.items data)) as [els|];
    [|discriminate].
  intros [= <-]. now exists els.
Qed.

Lemma render_unsupported data card a :
  In card (Data.items data) -> In a (actionsOrEmpty card) -> ~ supported a ->
  exists a',
    ~ supported a' /\ render data = Throw (unsupported (Action.action a')).
Proof.
  intros Hc Ha Hn. unfold render.
  destruct (renderCard_unsupported data card a Ha Hn) as [e He].
  destruct (map_throwing_throw (renderCard data) (Data.items data) card e Hc He)
    as [e' He'].
  rewrite He'.
  destruct (map_throwing_throw_inv _ _ _ He') as [card' [_ Hc']].
  destruct (renderCard_throw_inv _ _ _ Hc') as [a' [_ Ha']].
  destruct (renderButton_throw_inv _ _ _ Ha') as [Hn' ->].
  now exists a'.
Qed.

Lemma includes_In l x : includes l x = true <-> In x l.
Proof.
  unfold includes. rewrite existsb_exists. split.
  - intros [y [Hin Heq]]. apply String.eqb_eq in Heq. now subst.
  - intros Hin. exists x. split; [assumption | apply String.eqb_refl].
Qed.

Lemma call_unsupported : ~ supported Samples.call.
Proof. unfold supported. simpl. intros [H | [H | H]]; discriminate. Qed.

(** C1.  Each action of kind 'Say something', 'Open URL' or 'Postback' is
    rendered as a button object of the shape fixed for its kind (with the
    url of an 'Open URL' button being the action's url after the BOT_URL
    replacement), and when all actions of the data are of these kinds
    [render] returns the carousel whose elements carry those buttons, one
    per action and in order.  An action of any other kind makes the
    callback throw, and data that holds such an action anywhere makes the
    whole [render] throw the error of an unsupported kind: no button is
    skipped. *)
Theorem render_buttons_by_kind (data : Data.t) :
  (forall a, supported a ->
     exists b, renderButton data a = Ok b /\ buttonShape a b)
  /\ (forall a, Action.action a = "Open URL" ->
        renderButton data a =
          Ok (JObj [("type", JStr "open_url");
                    ("title", Action.title a);
                    ("url", renderUrl data (Action.url a))]))
  /\ (allSupported data ->
      exists elements,
        render data = Ok (typingEvents data ++ [carouselEvent data elements])%list
        /\ Forall2 elementOf (Data.items data) elements)
  /\ (forall a, ~ supported a ->
        renderButton data a = Throw (unsupported (Action.action a)))
  /\ (forall card a,
        In card (Data.items data) -> In a (actionsOrEmpty card) ->
        ~ supported a ->
        exists a',
          ~ supported a'
          /\ render data = Throw (unsupported (Action.action a'))).
Proof.
  split; [|split; [|split; [|split]]].
  - intros a. apply renderButton_supported.
  - intros a H. unfold renderButton. rewrite H. reflexivity.
  - apply render_supported.
  - intros a. apply renderButton_unsupported.
  - apply render_unsupported.
Qed.

Lemma render_buttons_by_kind_witness :
  (exists b, renderButton Samples.dataTyping Samples.openUrl = Ok b
             /\ buttonShape Samples.openUrl b)
  /\ (exists a',
        ~ supported a'
        /\ render Samples.dataCall = Throw (unsupported (Action.action a'))).
Proof.
  split.
  - apply (proj1 (render_buttons_by_kind Samples.dataTyping)).
    right. left. reflexivity.
  - apply (proj2 (proj2 (proj2 (proj2 (render_buttons_by_kind Samples.dataCall))))
             (Samples.cardOf [Samples.postback; Samples.call; Samples.openUrl])
             Samples.call).
    + simpl. right. left. reflexivity.
    + simpl. right. left. reflexivity.
    + exact call_unsupported.
Defined.

(** C6.  When [data.typing] is truthy, every event list [render] returns
    starts with the event [{type: 'typing', value: data.typing}] and the
    carousel event follows it as the only other element; and [render] does
    return one when all actions are of supported kinds. *)
Theorem render_typing_first (data : Data.t) :
  truthy (Data.typing data) = true ->
  (allSupported data -> exists evs, render data = Ok evs)
  /\ (forall evs,
        render data = Ok evs ->
        exists carousel,
          evs = [JObj [("type", JStr "typing"); ("value", Data.typing data)];
                 carousel]
          /\ get "type" (hd JUndefined evs) = JStr "typing"
          /\ get "type" carousel = JStr "carousel").
Proof.
  intros Ht. split.
  - intros Hall. destruct (render_supported data Hall) as [els [Hr _]].
    eexists. exact Hr.
  - intros evs Hr. destruct (render_ok_inv data evs Hr) as [els [-> _]].
    unfold typingEvents. rewrite Ht.
    exists (carouselEvent data els). repeat split.
Qed.

Lemma render_typing_first_witness :
  truthy (Data.typing Samples.dataTyping) = true
  /\ exists evs carousel,
       render Samples.dataTyping = Ok evs
       /\ evs = [JObj [("type", JStr "typing"); ("value", JBool true)]; carousel]
       /\ get "type" carousel = JStr "carousel".
Proof.
  split; [reflexivity|].
  destruct (render_typing_first Samples.dataTyping eq_refl) as [_ H].
  destruct (H _ eq_refl) as [carousel [He [_ Hc]]].
  eexists. exists carousel. split; [reflexivity|]. split; assumption.
Defined.

(** C7.  On a channel outside the templated list, [renderElement] of data
    whose items are the single card [{title: 'A', actions: []}] returns a
    payload whose last event is the carousel event, with one element whose
    title is 'A' and whose buttons array is empty. *)
Theorem renderElement_single_card_A
    (base_renderer : Data.t -> string -> result (list jsval))
    (data : Data.t) (card : Card.t) (channel : string) :
  Data.items data = [card] ->
  Card.title card = JStr "A" ->
  Card.actions card = Some [] ->
  includes templatedChannels channel = false ->
  exists payload carousel el,
    renderElement base_renderer data channel = Ok payload
    /\ last payload JUndefined = carousel
    /\ get "type" carousel = JStr "carousel"
    /\ get "elements" carousel = JArr [el]
    /\ get "title" el = JStr "A"
    /\ exists buttons, get "buttons" el = JArr buttons /\ length buttons = 0.
Proof.
  intros Hitems Htitle Hactions Hchan.
  unfold renderElement, render. rewrite Hchan, Hitems. simpl.
  unfold renderCard, actionsOrEmpty. rewrite Hactions, Htitle. simpl.
  do 3 eexists. split; [reflexivity|].
  rewrite last_last. repeat split.
  exists []. split; reflexivity.
Qed.

Lemma renderElement_single_card_A_witness :
  exists payload carousel el,
    renderElement Samples.templated Samples.dataA "whatsapp" = Ok payload
    /\ last payload JUndefined = carousel
    /\ get "type" carousel = JStr "carousel"
    /\ get "elements" carousel = JArr [el]
    /\ get "title" el = JStr "A"
    /\ exists buttons, get "buttons" el = JArr buttons /\ length buttons = 0.
Proof.
  exact (renderElement_single_card_A Samples.templated Samples.dataA
           Samples.cardA "whatsapp" eq_refl eq_refl eq_refl eq_refl).
Defined.

(** C8.  For each of the channels 'web', 'slack', 'teams', 'messenger',
    'telegram' and 'twilio', [renderElement] is [base.renderer] applied to
    the data and the kind 'carousel'; for every other channel it is the
    local [render]. *)
Theorem renderElement_by_channel
    (base_renderer : Data.t -> string -> result (list jsval))
    (data : Data.t) (channel : string) :
  (In channel ["web"; "slack"; "teams"; "messenger"; "telegram"; "twilio"] ->
   renderElement base_renderer data channel = base_renderer data "carousel")
  /\ (~ In channel ["web"; "slack"; "teams"; "messenger"; "telegram"; "twilio"] ->
      renderElement base_renderer data channel = render data).
Proof.
  unfold renderElement. split; intros H.
  - apply (includes_In templatedChannels) in H. now rewrite H.
  - destruct (includes templatedChannels channel) eqn:E; [|reflexivity].
    exfalso. apply H. now apply (includes_In templatedChannels).
Qed.

Lemma renderElement_by_channel_witness :
  renderElement Samples.templated Samples.dataCall "slack"
    = Samples.templated Samples.dataCall "carousel"
  /\ renderElement Samples.templated Samples.dataCall "sms"
      = render Samples.dataCall.
Proof.
  split.
  - apply (proj1 (renderElement_by_channel Samples.templated Samples.dataCall
                    "slack")).
    simpl. right. left. reflexivity.
  - apply (proj2 (renderElement_by_channel Samples.templated Samples.dataCall
                    "sms")).
    simpl. intros [H|[H|[H|[H|[H|[H|[]]]]]]]; discriminate.
Defined.

End CarouselProofs.

(** ** The NLU server routes: proofs *)

Module NLUServerProofs.
Import NLUServer NLUServerSpec.

(** Unfolds a route down to the calls it makes. *)
Ltac route :=
  unfold postTrain, getTrain, postPredict, try_catch, bind, call,
    call_detached, pure, ret, uptoPredict, sentenceOf, passwordOf,
    intentsOfInput; simpl.

(** Runs a route along the outcomes of the calls found in the context. *)
Ltac along :=
  repeat match goal with
         | H : _ = (_, _) |- _ => rewrite H; clear H; simpl
         | H : _ = Ok _ |- _ => rewrite H; clear H; simpl
         | H : _ = Throw _ |- _ => rewrite H; clear H; simpl
         end;
  repeat rewrite <- app_assoc; simpl.

Section Predict.
Context {S : Type}.
Variable svc : Services S.
Variable req : Request.
Variable w : World (S := S).

Lemma postPredict_done m s1 s2 p s3 s4 :
  getModel svc (modelId req) (passwordOf req) (state w) = (Ok (Some m), s1) ->
  loadModel svc m s1 = (Ok tt, s2) ->
  predict svc (sentenceOf req) [] (languageCode m) s2 = (Ok p, s3) ->
  unloadModel svc (languageCode m) s3 = (Ok tt, s4) ->
  postPredict svc req w =
    (Ok (send 200 (success "prediction" p)),
     {| state := s4;
        calls := calls w ++ uptoPredict req m
                   ++ [UnloadModel (languageCode m)] |}).
Proof. intros Hg Hl Hp Hu. revert Hg Hl Hp Hu. route. intros. now along. Qed.

Lemma postPredict_missing s1 :
  getModel svc (modelId req) (passwordOf req) (state w) = (Ok None, s1) ->
  postPredict svc req w =
    (Ok (send 404 (failure ("modelId " ++ modelId req ++ " can't be found"))),
     {| state := s1;
        calls := calls w ++ [GetModel (modelId req) (passwordOf req)] |}).
Proof. route. intros. now along. Qed.

Lemma postPredict_getModel_throws e s1 :
  getModel svc (modelId req) (passwordOf req) (state w) = (Throw e, s1) ->
  postPredict svc req w =
    (Ok (send 404 (failure (message e))),
     {| state := s1;
        calls := calls w ++ [GetModel (modelId req) (passwordOf req)] |}).
Proof. route. intros. now along. Qed.

Lemma postPredict_loadModel_throws m s1 e s2 :
  getModel svc (modelId req) (passwordOf req) (state w) = (Ok (Some m), s1) ->
  loadModel svc m s1 = (Throw e, s2) ->
  postPredict svc req w =
    (Ok (send 404 (failure (message e))),
     {| state := s2;
        calls := calls w ++ [GetModel (modelId req) (passwordOf req);
                             LoadModel m] |}).
Proof. route. intros. now along. Qed.

Lemma postPredict_predict_throws m s1 s2 e s3 :
  getModel svc (modelId req) (passwordOf req) (state w) = (Ok (Some m), s1) ->
  loadModel svc m s1 = (Ok tt, s2) ->
  predict svc (sentenceOf req) [] (languageCode m) s2 = (Throw e, s3) ->
  postPredict svc req w =
    (Ok (send 404 (failure (message e))),
     {| state := s3; calls := calls w ++ uptoPredict req m |}).
Proof. route. intros. now along. Qed.

Lemma postPredict_unloadModel_throws m s1 s2 p s3 e s4 :
  getModel svc (modelId req) (passwordOf req) (state w) = (Ok (Some m), s1) ->
  loadModel svc m s1 = (Ok tt, s2) ->
  predict svc (sentenceOf req) [] (languageCode m) s2 = (Ok p, s3) ->
  unloadModel svc (languageCode m) s3 = (Throw e, s4) ->
  postPredict svc req w =
    (Ok (send 404 (failure (message e))),
     {| state := s4;
        calls := calls w ++ uptoPredict req m
                   ++ [UnloadModel (languageCode m)] |}).
Proof. route. intros. now along. Qed.

(** The route itself never throws: it always sends a response. *)
Lemma postPredict_responds : exists r, fst (postPredict svc req w) = Ok r.
Proof.
  route.
  destruct (getModel svc _ _ _) as [[[m|]|e] s1]; simpl; eauto.
  destruct (loadModel svc _ _) as [[u|e] s2]; simpl; eauto.
  destruct (predict svc _ _ _ _) as [[p|e] s3]; simpl; eauto.
  destruct (unloadModel svc _ _) as [[u'|e] s4]; simpl; eauto.
Qed.

End Predict.

Section Claims.
Context {S : Type}.
Variable svc : Services S.
Variable req : Request.
Variable w : World (S := S).

(** C2.  [POST /predict/:modelId]: when [getModel] yields a model and
    no call throws, the route calls [getModel], [loadModel], [predict]
    on the sentence of the request and [unloadModel], in this order and
    nothing else, and answers 200 with [{success: true, prediction}].
    When no model is found, and when any one of the four calls throws,
    it answers 404 with [{success: false, error}], the error being the
    message of what was thrown. *)
Theorem postPredict_load_predict_unload :
  (forall m s1 s2 p s3 s4,
     getModel svc (modelId req) (passwordOf req) (state w) = (Ok (Some m), s1) ->
     loadModel svc m s1 = (Ok tt, s2) ->
     predict svc (sentenceOf req) [] (languageCode m) s2 = (Ok p, s3) ->
     unloadModel svc (languageCode m) s3 = (Ok tt, s4) ->
     fst (postPredict svc req w)
       = Ok {| status := 200;
               sent := JObj [("success", JBool true); ("prediction", p)] |}
     /\ calls (snd (postPredict svc req w))
        = (calls w ++ [GetModel (modelId req) (passwordOf req);
                       LoadModel m;
                       Predict (sentenceOf req) [] (languageCode m);
                       UnloadModel (languageCode m)])%list)
  /\ (forall s1,
        getModel svc (modelId req) (passwordOf req) (state w) = (Ok None, s1) ->
        fst (postPredict svc req w)
          = Ok {| status := 404;
                  sent := JObj [("success", JBool false);
                                ("error", JStr ("modelId " ++ modelId req
                                                  ++ " can't be found"))] |})
  /\ (forall e m s1 s2 p s3 s4,
        getModel svc (modelId req) (passwordOf req) (state w) = (Throw e, s1)
        \/ (getModel svc (modelId req) (passwordOf req) (state w)
              = (Ok (Some m), s1)
            /\ (loadModel svc m s1 = (Throw e, s2)
                \/ (loadModel svc m s1 = (Ok tt, s2)
                    /\ (predict svc (sentenceOf req) [] (languageCode m) s2
                          = (Throw e, s3)
                        \/ (predict svc (sentenceOf req) [] (languageCode m) s2
                              = (Ok p, s3)
                            /\ unloadModel svc (languageCode m) s3
                                 = (Throw e, s4)))))) ->
        fst (postPredict svc req w)
          = Ok {| status := 404;
                  sent := JObj [("success", JBool false);
                                ("error", JStr (message e))] |}).
Proof.
  split; [|split].
  - intros m s1 s2 p s3 s4 Hg Hl Hp Hu.
    rewrite (postPredict_done svc req w m s1 s2 p s3 s4 Hg Hl Hp Hu).
    simpl. split; reflexivity.
  - intros s1 Hg. now rewrite (postPredict_missing svc req w s1 Hg).
  - intros e m s1 s2 p s3 s4
      [Hg | [Hg [Hl | [Hl [Hp | [Hp Hu]]]]]].
    + now rewrite (postPredict_getModel_throws svc req w e s1 Hg).
    + now rewrite (postPredict_loadModel_throws svc req w m s1 e s2 Hg Hl).
    + now rewrite (postPredict_predict_throws svc req w m s1 s2 e s3 Hg Hl Hp).
    + now rewrite (postPredict_unloadModel_throws svc req w m s1 s2 p s3 e s4
                     Hg Hl Hp Hu).
Qed.

(** C10.  [POST /predict/:modelId]: when [predict] throws after
    [loadModel] went through, the calls of the request are [getModel],
    [loadModel] and [predict] and no [unloadModel]; the collaborators
    are left in the state [predict] left them in, with the model still
    loaded; and the answer is 404 with the message of the error. *)
Theorem postPredict_failed_predict_keeps_model_loaded m s1 s2 e s3 :
  getModel svc (modelId req) (passwordOf req) (state w) = (Ok (Some m), s1) ->
  loadModel svc m s1 = (Ok tt, s2) ->
  predict svc (sentenceOf req) [] (languageCode m) s2 = (Throw e, s3) ->
  exists made,
    calls (snd (postPredict svc req w)) = (calls w ++ made)%list
    /\ made = [GetModel (modelId req) (passwordOf req); LoadModel m;
               Predict (sentenceOf req) [] (languageCode m)]
    /\ (forall lang, ~ In (UnloadModel lang) made)
    /\ state (snd (postPredict svc req w)) = s3
    /\ fst (postPredict svc req w)
       = Ok {| status := 404;
               sent := JObj [("success", JBool false);
                             ("error", JStr (message e))] |}.
Proof.
  intros Hg Hl Hp.
  rewrite (postPredict_predict_throws svc req w m s1 s2 e s3 Hg Hl Hp).
  exists (uptoPredict req m). simpl. repeat split.
  intros lang [H | [H | [H | []]]]; discriminate.
Qed.

End Claims.

Section TrainClaims.
Context {S : Type}.
Variable svc : Services S.

(** How [train] settles is nothing the route looks at. *)
Lemma postTrain_settleTrain (o : settled) (req : Request) (w : World) :
  postTrain (settleTrain o svc) req w = postTrain svc req w.
Proof.
  route.
  destruct (validate svc _ _) as [input|e]; simpl; [|reflexivity].
  destruct (computeModelHash svc _ _ _) as [hash|e]; simpl; [|reflexivity].
  destruct (makeModelId svc _ _ _) as [id|e]; simpl; [|reflexivity].
  destruct (train svc _ _ _ _ _ _) as [o' s']; reflexivity.
Qed.

(** C3.  [GET /train/:modelId]: a session tracked for the model id is
    sent back as it is in [{success: true, session}]; without one, a
    persisted model found by [getModel] gives the session
    [{status: 'done', progress: 1, language: model.languageCode}];
    with neither a session nor a model the answer is 404 with
    [{success: false, error}]. *)
Theorem getTrain_session_or_model (req : Request) (w : World) :
  (forall live s1,
     getTrainingSession svc (modelId req) (state w) = (Ok (Some live), s1) ->
     fst (getTrain svc req w)
       = Ok {| status := 200;
               sent := JObj [("success", JBool true); ("session", live)] |})
  /\ (forall s1 m s2,
        getTrainingSession svc (modelId req) (state w) = (Ok None, s1) ->
        getModel svc (modelId req) (passwordOf req) s1 = (Ok (Some m), s2) ->
        fst (getTrain svc req w)
          = Ok {| status := 200;
                  sent := JObj [("success", JBool true);
                                ("session",
                                 JObj [("status", JStr "done");
                                       ("progress", JNum 1);
                                       ("language", JStr (languageCode m))])] |})
  /\ (forall s1 s2,
        getTrainingSession svc (modelId req) (state w) = (Ok None, s1) ->
        getModel svc (modelId req) (passwordOf req) s1 = (Ok None, s2) ->
        fst (getTrain svc req w)
          = Ok {| status := 404;
                  sent := JObj
                    [("success", JBool false);
                     ("error",
                      JStr ("no model or training could be found for modelId: "
                              ++ modelId req))] |}).
Proof.
  split; [|split]; route; intros; now along.
Qed.

(** C4.  [POST /train]: [validate] is called on the body with
    [stripUnknown: true]; when it accepts the body and the identifier
    is computed, the route starts [train] with that identifier and
    answers 200 with [{success: true, modelId}], whichever way the
    promise of [train] settles; when validation fails, or the hash or
    the identifier computation throws, it answers 500 (not 400) with
    [{success: false, error: message}] and starts no training. *)
Theorem postTrain_answers_at_once (req : Request) (w : World) :
  (forall input hash id,
     validate svc (body req) {| stripUnknown := true |} = Ok input ->
     computeModelHash svc (intentsOfInput input) (entities input)
       (language input) = Ok hash ->
     makeModelId svc hash (language input) (seed input) = Ok id ->
     fst (postTrain svc req w)
       = Ok {| status := 200;
               sent := JObj [("success", JBool true); ("modelId", JStr id)] |}
     /\ calls (snd (postTrain svc req w))
        = (calls w ++ [Train id (password input) (intentsOfInput input)
                         (entities input) (language input)])%list
     /\ forall o,
          fst (postTrain (settleTrain o svc) req w)
          = Ok {| status := 200;
                  sent := JObj [("success", JBool true);
                                ("modelId", JStr id)] |})
  /\ (forall e input hash,
        validate svc (body req) {| stripUnknown := true |} = Throw e
        \/ (validate svc (body req) {| stripUnknown := true |} = Ok input
            /\ (computeModelHash svc (intentsOfInput input) (entities input)
                  (language input) = Throw e
                \/ (computeModelHash svc (intentsOfInput input)
                      (entities input) (language input) = Ok hash
                    /\ makeModelId svc hash (language input) (seed input)
                       = Throw e))) ->
        postTrain svc req w
          = (Ok {| status := 500;
                   sent := JObj [("success", JBool false);
                                 ("error", JStr (message e))] |}, w)).
Proof.
  split.
  - intros input hash id Hv Hh Hm.
    assert (Hrun : fst (postTrain svc req w)
                   = Ok (send 200 (success "modelId" (JStr id)))
                   /\ calls (snd (postTrain svc req w))
                      = (calls w ++ [Train id (password input)
                                       (intentsOfInput input)
                                       (entities input)
                                       (language input)])%list).
    { revert Hv Hh Hm. route. intros Hv Hh Hm. rewrite Hv. simpl.
      rewrite Hh. simpl. rewrite Hm. simpl.
      destruct (train svc _ _ _ _ _ _) as [o' s']. simpl.
      split; reflexivity. }
    destruct Hrun as [Hr Hc]. repeat split; try assumption.
    intros o. rewrite postTrain_settleTrain. exact Hr.
  - intros e input hash [Hv | [Hv [Hh | [Hh Hm]]]];
      revert Hv; try revert Hh; try revert Hm; route; intros; now along.
Qed.

End TrainClaims.

Import ServerSamples.

Lemma postPredict_load_predict_unload_witness :
  fst (postPredict sampleServices (predictRequest "stored" hi) fresh)
    = Ok {| status := 200;
            sent := JObj [("success", JBool true);
                          ("prediction",
                           JObj [("intent", JStr "greet");
                                 ("utterance", JStr "hi")])] |}
  /\ calls (snd (postPredict sampleServices (predictRequest "stored" hi) fresh))
     = [GetModel "stored" (JStr EmptyString); LoadModel english;
        Predict (JStr "hi") [] "en"; UnloadModel "en"].
Proof.
  exact (proj1 (postPredict_load_predict_unload sampleServices
                  (predictRequest "stored" hi) fresh)
           english [] ["en"] _ ["en"] [] eq_refl eq_refl eq_refl eq_refl).
Defined.

Lemma postPredict_failed_predict_keeps_model_loaded_witness :
  exists made,
    calls (snd (postPredict sampleServices (predictRequest "stored" (JObj []))
                  fresh)) = made
    /\ made = [GetModel "stored" (JStr EmptyString); LoadModel english;
               Predict JUndefined [] "en"]
    /\ (forall lang, ~ In (UnloadModel lang) made)
    /\ state (snd (postPredict sampleServices
                     (predictRequest "stored" (JObj [])) fresh)) = ["en"]
    /\ fst (postPredict sampleServices (predictRequest "stored" (JObj [])) fresh)
       = Ok {| status := 404;
               sent := JObj [("success", JBool false);
                             ("error", JStr "sentence must be a string")] |}.
Proof.
  exact (postPredict_failed_predict_keeps_model_loaded sampleServices
           (predictRequest "stored" (JObj [])) fresh
           english [] ["en"] (Error "sentence must be a string") ["en"]
           eq_refl eq_refl eq_refl).
Defined.

Lemma getTrain_session_or_model_witness :
  fst (getTrain sampleServices (predictRequest "live" (JObj [])) fresh)
    = Ok {| status := 200;
            sent := JObj [("success", JBool true); ("session", liveSession)] |}
  /\ fst (getTrain sampleServices (predictRequest "stored" (JObj [])) fresh)
     = Ok {| status := 200;
             sent := JObj [("success", JBool true);
                           ("session",
                            JObj [("status", JStr "done");
                                  ("progress", JNum 1);
                                  ("language", JStr "en")])] |}
  /\ fst (getTrain sampleServices (predictRequest "nowhere" (JObj [])) fresh)
     = Ok {| status := 404;
             sent := JObj
               [("success", JBool false);
                ("error",
                 JStr "no model or training could be found for modelId: nowhere")] |}.
Proof.
  split; [|split].
  - exact (proj1 (getTrain_session_or_model sampleServices
                    (predictRequest "live" (JObj [])) fresh)
             liveSession [] eq_refl).
  - exact (proj1 (proj2 (getTrain_session_or_model sampleServices
                           (predictRequest "stored" (JObj [])) fresh))
             [] english [] eq_refl eq_refl).
  - exact (proj2 (proj2 (getTrain_session_or_model sampleServices
                           (predictRequest "nowhere" (JObj [])) fresh))
             [] [] eq_refl eq_refl).
Defined.

Lemma postTrain_answers_at_once_witness :
  fst (postTrain sampleServices (trainRequest 1) fresh)
    = Ok {| status := 200;
            sent := JObj [("success", JBool true);
                          ("modelId", JStr "iieen.en.1")] |}
  /\ postTrain sampleServices (predictRequest "x" (JObj [])) fresh
     = (Ok {| status := 500;
              sent := JObj [("success", JBool false);
                            ("error", JStr "invalid train input")] |}, fresh).
Proof.
  split.
  - exact (proj1 (proj1 (postTrain_answers_at_once sampleServices
                           (trainRequest 1) fresh)
                    (validInput 1) "iieen" "iieen.en.1"
                    eq_refl eq_refl eq_refl)).
  - exact (proj2 (postTrain_answers_at_once sampleServices
                    (predictRequest "x" (JObj [])) fresh)
             (Error "invalid train input") (validInput 1) EmptyString
             (or_introl eq_refl)).
Defined.

End NLUServerProofs.

(** ** The training widget: proofs *)

Module TrainNowProofs.
Import TrainNow.

Lemma run_snoc (s : State) (l : list Action) (a : Action) :
  run s (l ++ [a]) = fst (step (run s l) a).
Proof.
  revert s. induction l as [|a' rest IH]; intros s; simpl.
  - reflexivity.
  - apply IH.
Qed.

(** A done or canceled NLU event resets both flags, whatever they were. *)
Lemma step_done_resets (s : State) (event : StatusbarEvent) :
  type event = "nlu" ->
  status (trainSession event) = "done"
  \/ status (trainSession event) = "canceled" ->
  fst (step s (Statusbar event))
  = {| loading := loading s; training := false; cancelling := false |}.
Proof.
  intros Ht Hs. simpl. unfold isDoneOrCancelled. rewrite Ht.
  destruct Hs as [-> | ->]; reflexivity.
Qed.

(** C9.  Right after [trainNow] is invoked the [training] flag is set,
    the request to train has gone out and the component renders the
    cancel button (enabled when no cancellation was pending).  After any
    further actions, an NLU status event whose train session is 'done'
    or 'canceled' leaves both [training] and [cancelling] reset, as in
    the initial state, and the component renders the train button
    again. *)
Theorem train_then_done_resets
    (autoTrain : bool) (s : State) (between : list Action)
    (event : StatusbarEvent) :
  (training (fst (step s TrainNowClicked)) = true
   /\ snd (step s TrainNowClicked) = [ApiTrain]
   /\ onClick (render autoTrain (fst (step s TrainNowClicked))) = cancelTraining
   /\ label (render autoTrain (fst (step s TrainNowClicked)))
      = "module.nlu.cancelTraining"
   /\ (cancelling s = false ->
       disabled (render autoTrain (fst (step s TrainNowClicked))) = Some false))
  /\ (type event = "nlu" ->
      status (trainSession event) = "done"
      \/ status (trainSession event) = "canceled" ->
      let s' := run (fst (step s TrainNowClicked))
                  (between ++ [Statusbar event]) in
      training s' = false
      /\ cancelling s' = false
      /\ (training s', cancelling s') = (training initial, cancelling initial)
      /\ onClick (render autoTrain s') = trainNow
      /\ disabled (render autoTrain s') = None).
Proof.
  split.
  - simpl. repeat split. intros ->. reflexivity.
  - intros Ht Hs s'. subst s'.
    rewrite run_snoc, (step_done_resets _ event Ht Hs).
    repeat split.
Qed.

Lemma train_then_done_resets_witness :
  let s' := run (fst (step initial TrainNowClicked))
              ([CancelClicked; CancelResolved]
                 ++ [Statusbar (WidgetSamples.nluEvent "canceled")]) in
  training s' = false
  /\ cancelling s' = false
  /\ (training s', cancelling s') = (training initial, cancelling initial)
  /\ onClick (render true s') = trainNow
  /\ disabled (render true s') = None.
Proof.
  exact (proj2 (train_then_done_resets true initial
                  [CancelClicked; CancelResolved]
                  (WidgetSamples.nluEvent "canceled"))
           eq_refl (or_intror eq_refl)).
Defined.

End TrainNowProofs.

(** ** The carousel renderer: further properties *)

Module CarouselMoreProofs.
Import Carousel CarouselSpec CarouselOrder.

Lemma find_append {A} (f : A -> bool) (l1 l2 : list A) :
  find f (l1 ++ l2)
  = match find f l1 with Some x => Some x | None => find f l2 end.
Proof.
  induction l1 as [|x rest IH]; simpl; [reflexivity|].
  destruct (f x); [reflexivity | exact IH].
Qed.

Lemma renderButton_by_supportedb data a :
  if supportedb a
  then exists b, renderButton data a = Ok b
  else renderButton data a = Throw (unsupported (Action.action a)).
Proof.
  unfold supportedb, renderButton.
  destruct (String.eqb (Action.action a) "Say something"); simpl; [eauto|].
  destruct (String.eqb (Action.action a) "Open URL"); simpl; [eauto|].
  destruct (String.eqb (Action.action a) "Postback"); simpl; eauto.
Qed.

(** The loop over buttons stops at the first action it cannot render. *)
Lemma buttons_first_unsupported data (l : list Action.t) :
  match find (fun a => negb (supportedb a)) l with
  | Some a => map_throwing (renderButton data) l
              = Throw (unsupported (Action.action a))
  | None => exists bs, map_throwing (renderButton data) l = Ok bs
  end.
Proof.
  induction l as [|a rest IH]; simpl; [eauto|].
  pose proof (renderButton_by_supportedb data a) as Ha.
  destruct (supportedb a); simpl.
  - destruct Ha as [b ->].
    destruct (find _ rest) as [a'|].
    + now rewrite IH.
    + destruct IH as [bs ->]. eauto.
  - now rewrite Ha.
Qed.

Lemma cards_first_unsupported data (cards : list Card.t) :
  match find (fun a => negb (supportedb a)) (flat_map actionsOrEmpty cards) with
  | Some a => map_throwing (renderCard data) cards
              = Throw (unsupported (Action.action a))
  | None => exists els, map_throwing (renderCard data) cards = Ok els
  end.
Proof.
  induction cards as [|card rest IH]; simpl; [eauto|].
  rewrite find_append. unfold renderCard at 1. unfold renderCard at 2.
  pose proof (buttons_first_unsupported data (actionsOrEmpty card)) as Hc.
  destruct (find _ (actionsOrEmpty card)) as [a|].
  - now rewrite Hc.
  - destruct Hc as [bs ->].
    destruct (find _ (flat_map actionsOrEmpty rest)) as [a'|].
    + now rewrite IH.
    + destruct IH as [els ->]. eauto.
Qed.

(** X1.  [render] throws exactly when some action of some card is of an
    unsupported kind, and then the error is the one for the first such
    action in reading order (card by card, button by button); otherwise it
    returns the typing events followed by the carousel event. *)
Theorem render_throws_first_unsupported (data : Data.t) :
  match firstUnsupported data with
  | Some a => render data = Throw (unsupported (Action.action a))
  | None =>
      exists elements,
        render data = Ok (typingEvents data ++ [carouselEvent data elements])%list
  end.
Proof.
  unfold firstUnsupported, allActions, render.
  pose proof (cards_first_unsupported data (Data.items data)) as H.
  destruct (find _ (flat_map actionsOrEmpty (Data.items data))) as [a|].
  - now rewrite H.
  - destruct H as [els ->]. now exists els.
Qed.

Lemma truthy_false (v : jsval) :
  truthy v = false <->
  v = JUndefined \/ v = JNull \/ v = JBool false \/ v = JNum 0
  \/ v = JStr EmptyString.
Proof.
  split.
  - destruct v as [| |b|n|s|l|o]; simpl; intros H; try discriminate; auto.
    + destruct b; [discriminate | auto].
    + apply Bool.negb_false_iff, Z.eqb_eq in H. subst. auto 6.
    + apply Bool.negb_false_iff, String.eqb_eq in H. subst. auto 6.
  - intros [-> | [-> | [-> | [-> | ->]]]]; reflexivity.
Qed.

(** X2.  When [data.typing] is [undefined], [null], [false], [0] or the
    empty string, whatever [render] returns is the carousel event alone:
    no typing event is put in front of it. *)
Theorem render_without_typing (data : Data.t) (evs : list jsval) :
  Data.typing data = JUndefined \/ Data.typing data = JNull
  \/ Data.typing data = JBool false \/ Data.typing data = JNum 0
  \/ Data.typing data = JStr EmptyString ->
  render data = Ok evs ->
  exists elements,
    evs = [carouselEvent data elements]
    /\ get "type" (carouselEvent data elements) = JStr "carousel"
    /\ get "collectFeedback" (carouselEvent data elements)
       = Data.collectFeedback data.
Proof.
  intros Hf Hr. apply truthy_false in Hf.
  destruct (CarouselProofs.render_ok_inv data evs Hr) as [els [-> _]].
  unfold typingEvents. rewrite Hf. exists els. repeat split.
Qed.

Lemma render_without_typing_witness :
  exists elements,
    [JObj [("text", JStr " "); ("type", JStr "carousel");
           ("collectFeedback", JUndefined);
           ("elements",
            JArr [JObj [("title", JStr "A"); ("picture", JNull);
                        ("subtitle", JUndefined); ("buttons", JArr [])]])]]
    = [carouselEvent Samples.dataA elements]
    /\ get "type" (carouselEvent Samples.dataA elements) = JStr "carousel"
    /\ get "collectFeedback" (carouselEvent Samples.dataA elements)
       = Data.collectFeedback Samples.dataA.
Proof.
  exact (render_without_typing Samples.dataA _ (or_introl eq_refl) eq_refl).
Defined.

Lemma map_throwing_ok_inv {A B} (f : A -> result B) (l : list A) (ys : list B) :
  map_throwing f l = Ok ys -> Forall2 (fun x y => f x = Ok y) l ys.
Proof.
  revert ys. induction l as [|x rest IH]; simpl; intros ys.
  - intros [= <-]. constructor.
  - destruct (f x) as [y|] eqn:Hx; [|discriminate].
    destruct (map_throwing f rest) as [ys'|]; [|discriminate].
    intros [= <-]. constructor; [assumption | now apply IH].
Qed.

Lemma renderCard_fields data card el :
  renderCard data card = Ok el -> cardFields data card el.
Proof.
  unfold renderCard, cardFields.
  destruct (map_throwing (renderButton data) (actionsOrEmpty card)) as [bs|] eqn:Hb;
    [|discriminate].
  intros [= <-]. simpl. repeat split.
  - intros [-> | ->]; reflexivity.
  - intros img -> Hne. simpl.
    destruct (String.eqb_spec img EmptyString); [contradiction | reflexivity].
  - exists bs. split; [reflexivity|].
    now apply map_throwing_length in Hb.
Qed.

(** X3.  In whatever [render] returns, the carousel event comes last and
    has one element per card, in the order of the cards; each element
    carries the title and subtitle of its card unchanged, a picture that is
    [null] when the card has no image (or an empty one) and BOT_URL
    followed by the image path otherwise, and as many buttons as the card
    has actions (none when [actions] is missing). *)
Theorem render_elements_follow_cards (data : Data.t) (evs : list jsval) :
  render data = Ok evs ->
  exists elements,
    last evs JUndefined = carouselEvent data elements
    /\ get "elements" (last evs JUndefined) = JArr elements
    /\ length elements = length (Data.items data)
    /\ Forall2 (cardFields data) (Data.items data) elements.
Proof.
  intros Hr.
  destruct (CarouselProofs.render_ok_inv data evs Hr) as [els [-> Hm]].
  exists els. rewrite last_last. repeat split.
  - now apply map_throwing_length in Hm.
  - apply map_throwing_ok_inv in Hm. clear Hr.
    induction Hm as [|card el cards els' Hc _ IH]; constructor.
    + now apply renderCard_fields.
    + exact IH.
Qed.

Lemma render_throws_first_unsupported_witness :
  render Samples.dataCall = Throw (unsupported "Call").
Proof. exact (render_throws_first_unsupported Samples.dataCall). Defined.

Lemma render_elements_follow_cards_witness :
  exists elements,
    length elements = 2
    /\ Forall2 (cardFields Samples.dataTyping)
         (Data.items Samples.dataTyping) elements.
Proof.
  destruct (render_elements_follow_cards Samples.dataTyping _ eq_refl)
    as [els [_ [_ [Hl HF]]]].
  exists els. split; assumption.
Defined.

End CarouselMoreProofs.

(** ** The carousel renderer: urls and the preview text *)

Module CarouselUrlProofs.
Import Carousel CarouselOrder CarouselPreview.

Lemma substring_whole (s : string) : String.substring 0 (String.length s) s = s.
Proof. induction s as [|c rest IH]; simpl; [reflexivity | now rewrite IH]. Qed.

(** Up to the first dollar sign the replacement text is copied. *)
Lemma getSubstitution_app (matched before after a r : string) :
  dollarFree a = true ->
  getSubstitution matched before after (a ++ r)
  = a ++ getSubstitution matched before after r.
Proof.
  induction a as [|c rest IH]; simpl; [reflexivity|].
  intros H. apply andb_prop in H. destruct H as [Hc Hrest].
  apply Bool.negb_true_iff in Hc. rewrite Hc. now rewrite IH.
Qed.

Lemma getSubstitution_dollarFree (matched before after r : string) :
  dollarFree r = true -> getSubstitution matched before after r = r.
Proof.
  induction r as [|c rest IH]; simpl; [reflexivity|].
  intros H. apply andb_prop in H. destruct H as [Hc Hrest].
  apply Bool.negb_true_iff in Hc. rewrite Hc. now rewrite IH.
Qed.

Lemma append_assoc (a b c : string) : (a ++ b) ++ c = a ++ b ++ c.
Proof. induction a as [|x rest IH]; simpl; [reflexivity | now rewrite IH]. Qed.

(** A url that starts with the placeholder: only this occurrence is
    looked at, and what follows it is kept as it is. *)
Lemma replace_leading (replacement rest : string) :
  replace "BOT_URL" replacement ("BOT_URL" ++ rest)
  = getSubstitution "BOT_URL" EmptyString rest replacement ++ rest.
Proof.
  unfold replace.
  assert (Hi : String.index 0 "BOT_URL" ("BOT_URL" ++ rest) = Some 0)
    by (destruct rest; reflexivity).
  rewrite Hi. cbn. now rewrite Nat.sub_0_r, substring_whole.
Qed.

Lemma renderUrl_leading (data : Data.t) (rest : string) :
  renderUrl data (Some ("BOT_URL" ++ rest))
  = JStr (getSubstitution "BOT_URL" EmptyString rest (Data.BOT_URL data) ++ rest).
Proof.
  unfold renderUrl.
  replace (String.eqb ("BOT_URL" ++ rest) EmptyString) with false by reflexivity.
  now rewrite replace_leading.
Qed.

(** X4.  With a bot URL free of dollar signs, the url of an 'Open URL'
    button that starts with the placeholder BOT_URL is rendered as the bot
    URL followed by the rest of the url, the rest being kept verbatim even
    where it holds the placeholder again; a url in which the placeholder
    does not occur is rendered unchanged. *)
Theorem open_url_replaces_leading_placeholder (data : Data.t) (a : Action.t) :
  Action.action a = "Open URL" ->
  (forall rest,
     dollarFree (Data.BOT_URL data) = true ->
     Action.url a = Some ("BOT_URL" ++ rest) ->
     renderButton data a
     = Ok (JObj [("type", JStr "open_url");
                 ("title", Action.title a);
                 ("url", JStr (Data.BOT_URL data ++ rest))]))
  /\ (forall u,
        Action.url a = Some u ->
        String.index 0 "BOT_URL" u = None ->
        renderButton data a
        = Ok (JObj [("type", JStr "open_url");
                    ("title", Action.title a);
                    ("url", JStr u)])).
Proof.
  intros Hk. unfold renderButton. rewrite Hk. split.
  - intros rest Hd ->. rewrite renderUrl_leading.
    now rewrite getSubstitution_dollarFree.
  - intros u -> Hi. unfold renderUrl, replace. rewrite Hi.
    now destruct (String.eqb u EmptyString).
Qed.

Lemma open_url_replaces_leading_placeholder_witness :
  renderButton Samples.dataTyping MoreSamples.docsLink
  = Ok (JObj [("type", JStr "open_url");
              ("title", JStr "Docs");
              ("url", JStr "http://localhost:3000/docs?next=BOT_URL")]).
Proof.
  exact (proj1 (open_url_replaces_leading_placeholder Samples.dataTyping
                  MoreSamples.docsLink eq_refl)
           "/docs?next=BOT_URL" eq_refl eq_refl).
Defined.

(** X5.  The bot URL is used as a replacement pattern, not copied: where
    it holds [$$] the rendered url holds one dollar sign, and where it
    holds [$&] the rendered url holds the placeholder BOT_URL again. *)
Theorem bot_url_dollar_patterns (data : Data.t) (a b rest : string) :
  dollarFree a = true ->
  dollarFree b = true ->
  (Data.BOT_URL data = a ++ "$$" ++ b ->
   renderUrl data (Some ("BOT_URL" ++ rest)) = JStr (a ++ "$" ++ b ++ rest))
  /\ (Data.BOT_URL data = a ++ "$&" ++ b ->
      renderUrl data (Some ("BOT_URL" ++ rest))
      = JStr (a ++ "BOT_URL" ++ b ++ rest)).
Proof.
  intros Ha Hb. split; intros Hu; rewrite renderUrl_leading, Hu;
    rewrite (getSubstitution_app _ _ _ a _ Ha); cbn;
    rewrite (getSubstitution_dollarFree _ _ _ b Hb);
    f_equal; rewrite append_assoc; reflexivity.
Qed.

Lemma bot_url_dollar_patterns_witness :
  renderUrl MoreSamples.dataDollar (Some "BOT_URL/img") = JStr "http://h/$x/img"
  /\ renderUrl MoreSamples.dataAmpersand (Some "BOT_URL/img")
     = JStr "http://h/BOT_URL/img".
Proof.
  split.
  - exact (proj1 (bot_url_dollar_patterns MoreSamples.dataDollar
                    "http://h/" "x" "/img" eq_refl eq_refl) eq_refl).
  - exact (proj2 (bot_url_dollar_patterns MoreSamples.dataAmpersand
                    "http://h/" EmptyString "/img" eq_refl eq_refl) eq_refl).
Defined.

(** X6.  The preview text: without [items] it is [undefined]; with an
    empty [items] array the function throws (it reads the title of a
    first card that is not there), and with an empty array only; with at
    least one card it is "Carousel: (n) " followed by the text of the title
    of the first card, [n] being the number of cards; for a title that is a
    string that text is the title itself; later cards are not looked
    at. *)
Theorem computePreviewText_cases
    (ToString : jsval -> string) (items : option (list Card.t)) :
  (items = None -> computePreviewText ToString items = Ok JUndefined)
  /\ ((exists e, computePreviewText ToString items = Throw e)
      <-> items = Some [])
  /\ (forall first rest,
        items = Some (first :: rest) ->
        computePreviewText ToString items
        = Ok (JStr ("Carousel: (" ++ lengthText (first :: rest) ++ ") "
                      ++ ToString (Card.title first)))
        /\ (forall t,
              (forall s, ToString (JStr s) = s) ->
              Card.title first = JStr t ->
              computePreviewText ToString items
              = Ok (JStr ("Carousel: (" ++ lengthText (first :: rest) ++ ") "
                            ++ t)))
        /\ forall rest',
             length rest' = length rest ->
             computePreviewText ToString (Some (first :: rest'))
             = computePreviewText ToString items).
Proof.
  split; [|split].
  - intros ->. reflexivity.
  - split.
    + intros [e He]. destruct items as [[|c l]|]; simpl in He;
        try discriminate; reflexivity.
    + intros ->. simpl. eauto.
  - intros first rest ->. split; [reflexivity|]. split.
    + intros t Hstr Ht. simpl. now rewrite Ht, Hstr.
    + intros rest' Hl. unfold computePreviewText, lengthText. simpl.
      now rewrite Hl.
Qed.

Lemma computePreviewText_cases_witness :
  computePreviewText MoreSamples.sampleToString
    (Some [Samples.cardA; Samples.cardOf []])
  = Ok (JStr "Carousel: (2) A").
Proof.
  exact (proj1 (proj2 (proj2 (proj2 (computePreviewText_cases
                                       MoreSamples.sampleToString
                                       (Some [Samples.cardA; Samples.cardOf []])))
                         Samples.cardA [Samples.cardOf []] eq_refl))
           "A" (fun s => eq_refl) eq_refl).
Defined.

End CarouselUrlProofs.

(** ** The NLU server routes: further properties *)

Module NLUServerMoreProofs.
Import NLUServer NLUServerSpec NLUServerCalls.

Ltac route := NLUServerProofs.route.

Ltac flatten_calls := repeat rewrite <- app_assoc; simpl.

Section Routes.
Context {S : Type}.
Variable svc : Services S.
Variable req : Request.
Variable w : World (S := S).

(** X7.  [POST /predict/:modelId] never lets an exception out: it always
    answers, with 200 or with 404 and no other status; and it answers 200
    only when [getModel] found a model and [loadModel], [predict] and
    [unloadModel] all went through, the body then holding the prediction
    of [predict]. *)
Theorem postPredict_answers_200_or_404 :
  exists r,
    fst (postPredict svc req w) = Ok r
    /\ (status r = 200%Z \/ status r = 404%Z)
    /\ (status r = 200%Z ->
        exists m s1 s2 p s3 s4,
          getModel svc (modelId req) (passwordOf req) (state w)
            = (Ok (Some m), s1)
          /\ loadModel svc m s1 = (Ok tt, s2)
          /\ predict svc (sentenceOf req) [] (languageCode m) s2 = (Ok p, s3)
          /\ unloadModel svc (languageCode m) s3 = (Ok tt, s4)
          /\ sent r = JObj [("success", JBool true); ("prediction", p)]
          /\ state (snd (postPredict svc req w)) = s4).
Proof.
  route.
  destruct (getModel svc _ _ _) as [[[m|]|e] s1] eqn:Hg; simpl;
    try (eexists; split; [reflexivity|]; split; [now right|];
         intros H; discriminate H).
  destruct (loadModel svc m s1) as [[[]|e] s2] eqn:Hl; simpl;
    try (eexists; split; [reflexivity|]; split; [now right|];
         intros H; discriminate H).
  destruct (predict svc _ _ _ s2) as [[p|e] s3] eqn:Hp; simpl;
    try (eexists; split; [reflexivity|]; split; [now right|];
         intros H; discriminate H).
  destruct (unloadModel svc _ s3) as [[[]|e] s4] eqn:Hu; simpl;
    try (eexists; split; [reflexivity|]; split; [now right|];
         intros H; discriminate H).
  eexists. split; [reflexivity|]. split; [now left|]. intros _.
  exists m, s1, s2, p, s3, s4. repeat split; assumption.
Qed.

(** X8.  The calls [POST /predict/:modelId] adds to those made before:
    at most four, [getModel] first; [loadModel] is called only on the model
    [getModel] found, and [unloadModel] only after [loadModel] and
    [predict] went through, on the language of that model. *)
Theorem postPredict_unloads_only_after_predict :
  exists made,
    calls (snd (postPredict svc req w)) = (calls w ++ made)%list
    /\ hd_error made = Some (GetModel (modelId req) (passwordOf req))
    /\ length made <= 4
    /\ (forall m, In (LoadModel m) made ->
          exists s1,
            getModel svc (modelId req) (passwordOf req) (state w)
              = (Ok (Some m), s1))
    /\ (forall lang, In (UnloadModel lang) made ->
          exists m s1 s2 p s3,
            getModel svc (modelId req) (passwordOf req) (state w)
              = (Ok (Some m), s1)
            /\ loadModel svc m s1 = (Ok tt, s2)
            /\ predict svc (sentenceOf req) [] (languageCode m) s2 = (Ok p, s3)
            /\ lang = languageCode m).
Proof.
  route.
  destruct (getModel svc _ _ _) as [[[m|]|e] s1] eqn:Hg; simpl.
  2, 3: eexists; split; [reflexivity|]; simpl; repeat split; try lia;
    intros x [H | []]; discriminate H.
  destruct (loadModel svc m s1) as [[[]|e] s2] eqn:Hl; simpl.
  2: { flatten_calls. eexists. split; [reflexivity|]. simpl.
       repeat split; try lia.
       - intros m' [H | [H | []]]; try discriminate H.
         injection H as <-. eauto.
       - intros x [H | [H | []]]; discriminate H. }
  destruct (predict svc _ _ _ s2) as [[p|e] s3] eqn:Hp; simpl.
  2: { flatten_calls. eexists. split; [reflexivity|]. simpl.
       repeat split; try lia.
       - intros m' [H | [H | [H | []]]]; try discriminate H.
         injection H as <-. eauto.
       - intros x [H | [H | [H | []]]]; discriminate H. }
  destruct (unloadModel svc _ s3) as [[[]|e] s4] eqn:Hu; simpl;
    flatten_calls; (eexists; split; [reflexivity|]); simpl;
    (repeat split; try lia);
    try (intros m' [H | [H | [H | [H | []]]]]; try discriminate H;
         injection H as <-; eauto; fail);
    intros x [H | [H | [H | [H | []]]]]; try discriminate H;
    injection H as <-; exists m, s1, s2, p, s3; repeat split; assumption.
Qed.

(** X9.  [GET /train/:modelId] never lets an exception out: it answers
    with 200, 404 or 500; it asks the session service first and, besides,
    at most the model service: the engine is not touched and no training is
    started. *)
Theorem getTrain_only_looks_up :
  exists r made,
    fst (getTrain svc req w) = Ok r
    /\ (status r = 200%Z \/ status r = 404%Z \/ status r = 500%Z)
    /\ calls (snd (getTrain svc req w)) = (calls w ++ made)%list
    /\ hd_error made = Some (GetTrainingSession (modelId req))
    /\ length made <= 2
    /\ forallb isLookup made = true.
Proof.
  route.
  destruct (getTrainingSession svc _ _) as [[[live|]|e] s1]; simpl.
  1, 3: do 2 eexists; split; [reflexivity|]; split; [auto|];
    split; [reflexivity|]; simpl; repeat split; lia.
  destruct (getModel svc _ _ s1) as [[[m|]|e] s2]; simpl; flatten_calls;
    (do 2 eexists; split; [reflexivity|]; split; [auto|];
     split; [reflexivity|]; simpl; repeat split; lia).
Qed.

(** X10.  [GET /train/:modelId] with a tracked session: the model service
    is not asked and the password of the request plays no part; any body
    gets the same answer. *)
Theorem getTrain_live_session_ignores_password (req' : Request) live s1 :
  modelId req' = modelId req ->
  getTrainingSession svc (modelId req) (state w) = (Ok (Some live), s1) ->
  getTrain svc req' w = getTrain svc req w
  /\ calls (snd (getTrain svc req w))
     = (calls w ++ [GetTrainingSession (modelId req)])%list
  /\ fst (getTrain svc req w)
     = Ok {| status := 200;
             sent := JObj [("success", JBool true); ("session", live)] |}.
Proof.
  intros Hid Hs. route. rewrite Hid, Hs. simpl. repeat split.
Qed.

(** X11.  [GET /train/:modelId] answers 500, not 404, with the message of
    the error when the session service throws, or when, without a tracked
    session, the model service throws. *)
Theorem getTrain_error_is_500 (e : exn) s1 s2 :
  getTrainingSession svc (modelId req) (state w) = (Throw e, s1)
  \/ (getTrainingSession svc (modelId req) (state w) = (Ok None, s1)
      /\ getModel svc (modelId req) (passwordOf req) s1 = (Throw e, s2)) ->
  fst (getTrain svc req w)
  = Ok {| status := 500;
          sent := JObj [("success", JBool false); ("error", JStr (message e))] |}.
Proof.
  intros [Hs | [Hs Hg]]; revert Hs; try revert Hg; route; intros;
    now NLUServerProofs.along.
Qed.

(** X12.  [POST /train] never lets an exception out and answers with 200
    or 500 only.  [trainService.train] is started exactly when the answer
    is 200: then once, for the identifier sent back; with 500 it is not
    started. *)
Theorem postTrain_trains_iff_200 :
  exists r made,
    fst (postTrain svc req w) = Ok r
    /\ calls (snd (postTrain svc req w)) = (calls w ++ made)%list
    /\ (status r = 200%Z \/ status r = 500%Z)
    /\ (status r = 200%Z ->
        exists id pw intents ents lang,
          filter isTrain made = [Train id pw intents ents lang]
          /\ sent r = JObj [("success", JBool true); ("modelId", JStr id)])
    /\ (status r = 500%Z -> filter isTrain made = []).
Proof.
  route.
  destruct (validate svc _ _) as [input|e]; simpl.
  2: { exists (send 500 (failure (message e))), [].
       rewrite app_nil_r. repeat split; auto. intros H; discriminate H. }
  destruct (computeModelHash svc _ _ _) as [hash|e]; simpl.
  2: { exists (send 500 (failure (message e))), [].
       rewrite app_nil_r. repeat split; auto. intros H; discriminate H. }
  destruct (makeModelId svc _ _ _) as [id|e]; simpl.
  2: { exists (send 500 (failure (message e))), [].
       rewrite app_nil_r. repeat split; auto. intros H; discriminate H. }
  destruct (train svc _ _ _ _ _ _) as [o s']. simpl.
  do 2 eexists. split; [reflexivity|]. split; [reflexivity|].
  split; [now left|]. split.
  - intros _. do 5 eexists. split; reflexivity.
  - intros H. discriminate H.
Qed.

(** X13.  A request without a password, with [null] for it or with the
    empty string is one and the same to [GET /train/:modelId] and, the
    sentence being the same, to [POST /predict/:modelId]: the model
    service is asked with the empty string. *)
Theorem missing_password_is_empty_password (req' : Request) :
  modelId req' = modelId req ->
  noPassword (get "password" (body req)) ->
  noPassword (get "password" (body req')) ->
  passwordOf req = JStr EmptyString
  /\ getTrain svc req' w = getTrain svc req w
  /\ (get "sentence" (body req') = get "sentence" (body req) ->
      postPredict svc req' w = postPredict svc req w).
Proof.
  intros Hid Hp Hp'.
  assert (Hq : passwordOf req = JStr EmptyString)
    by (unfold passwordOf; destruct Hp as [-> | [-> | ->]]; reflexivity).
  assert (Hq' : passwordOf req' = JStr EmptyString)
    by (unfold passwordOf; destruct Hp' as [-> | [-> | ->]]; reflexivity).
  unfold passwordOf in Hq, Hq'. split; [exact Hq|].
  split; [|intros Hsen]; route; rewrite Hid, Hq, Hq'; try rewrite Hsen;
    reflexivity.
Qed.

End Routes.

Import ServerSamples.

Lemma getTrain_live_session_ignores_password_witness :
  getTrain sampleServices
    (predictRequest "live" (JObj [("password", JStr "wrong")])) fresh
  = getTrain sampleServices (predictRequest "live" (JObj [])) fresh.
Proof.
  exact (proj1 (getTrain_live_session_ignores_password sampleServices
                  (predictRequest "live" (JObj [])) fresh
                  (predictRequest "live" (JObj [("password", JStr "wrong")]))
                  liveSession [] eq_refl eq_refl)).
Defined.

Lemma getTrain_error_is_500_witness :
  fst (getTrain sampleServices (predictRequest "broken" (JObj [])) fresh)
  = Ok {| status := 500;
          sent := JObj [("success", JBool false);
                        ("error", JStr "model is corrupted")] |}.
Proof.
  exact (getTrain_error_is_500 sampleServices
           (predictRequest "broken" (JObj [])) fresh
           (Error "model is corrupted") [] []
           (or_intror (conj eq_refl eq_refl))).
Defined.

Lemma missing_password_is_empty_password_witness :
  postPredict sampleServices
    (predictRequest "stored"
       (JObj [("sentence", JStr "hi"); ("password", JNull)])) fresh
  = postPredict sampleServices (predictRequest "stored" hi) fresh.
Proof.
  exact (proj2 (proj2 (missing_password_is_empty_password sampleServices
                         (predictRequest "stored" hi) fresh
                         (predictRequest "stored"
                            (JObj [("sentence", JStr "hi"); ("password", JNull)]))
                         eq_refl (or_introl eq_refl)
                         (or_intror (or_introl eq_refl))))
           eq_refl).
Defined.

End NLUServerMoreProofs.

(** ** The express application: proofs *)

Module NLUAppProofs.
Import NLUApp.

Section App.
Variable ms : string -> Z.
Variable REVERSE_PROXY : jsval.
Variable options : APIOptions.

(** X14.  The middleware stack starts with CORS; it holds the token check
    exactly when an auth token of non-zero length is configured, and then
    the check is the last middleware of the stack, set up with that token
    and the admin token. *)
Theorem createExpressApp_auth_iff_token :
  hd_error (stack (createExpressApp ms REVERSE_PROXY options)) = Some Cors
  /\ existsb isAuth (stack (createExpressApp ms REVERSE_PROXY options))
     = hasAuthToken options
  /\ (forall m,
        In m (stack (createExpressApp ms REVERSE_PROXY options)) ->
        isAuth m = true ->
        exists t,
          authToken options = Some t
          /\ t <> EmptyString
          /\ m = AuthMiddleware t (adminToken options)
          /\ last (stack (createExpressApp ms REVERSE_PROXY options)) Cors = m).
Proof.
  unfold createExpressApp, hasAuthToken. simpl.
  destruct (Z.ltb 0 (limit options)); destruct (authToken options) as [t|];
    try (destruct (Nat.eqb_spec (String.length t) 0) as [Hz|Hnz]); simpl;
    (split; [reflexivity|]); (split; [reflexivity|]);
    intros m Hin Hm;
    repeat (destruct Hin as [<- | Hin]; try discriminate Hm);
    try contradiction;
    exists t; repeat split;
    intros ->; apply Hnz; reflexivity.
Qed.

(** X15.  The rate limiter is in the stack exactly when [options.limit] is
    above zero, at most once, with [max] the limit and the window [ms]
    makes of [options.limitWindow]; it sits after the five fixed
    middlewares and before the token check.  [trust proxy] is set exactly
    when REVERSE_PROXY is truthy. *)
Theorem createExpressApp_rate_limit_iff_positive :
  existsb isRateLimit (stack (createExpressApp ms REVERSE_PROXY options))
    = Z.ltb 0 (limit options)
  /\ length (filter isRateLimit
               (stack (createExpressApp ms REVERSE_PROXY options))) <= 1
  /\ (forall m,
        In m (stack (createExpressApp ms REVERSE_PROXY options)) ->
        isRateLimit m = true ->
        m = RateLimit (ms (limitWindow options)) (limit options)
              "Too many requests, please slow down"
        /\ nth_error (stack (createExpressApp ms REVERSE_PROXY options)) 5
           = Some m)
  /\ settings (createExpressApp ms REVERSE_PROXY options)
     = (if truthy REVERSE_PROXY then [("trust proxy", REVERSE_PROXY)] else []).
Proof.
  unfold createExpressApp. simpl.
  destruct (Z.ltb 0 (limit options)); destruct (authToken options) as [t|];
    try (destruct (Nat.eqb (String.length t) 0)); simpl;
    (split; [reflexivity|]); (split; [lia|]); (split; [|reflexivity]);
    intros m Hin Hm;
    repeat (destruct Hin as [<- | Hin]; try discriminate Hm);
    try contradiction; split; reflexivity.
Qed.

End App.

Lemma createExpressApp_auth_iff_token_witness :
  exists t,
    authToken MoreSamples.secured = Some t
    /\ t <> EmptyString
    /\ AuthMiddleware "secret" "admin" = AuthMiddleware t "admin"
    /\ last (stack (createExpressApp MoreSamples.hourly JUndefined
                      MoreSamples.secured)) Cors
       = AuthMiddleware "secret" "admin".
Proof.
  apply (proj2 (proj2 (createExpressApp_auth_iff_token MoreSamples.hourly
                         JUndefined MoreSamples.secured))).
  - simpl. do 6 right. left. reflexivity.
  - reflexivity.
Defined.

Lemma createExpressApp_rate_limit_iff_positive_witness :
  RateLimit 3600000 100 "Too many requests, please slow down"
  = RateLimit (MoreSamples.hourly "1h") 100 "Too many requests, please slow down"
  /\ nth_error (stack (createExpressApp MoreSamples.hourly JUndefined
                         MoreSamples.secured)) 5
     = Some (RateLimit 3600000 100 "Too many requests, please slow down").
Proof.
  apply (proj1 (proj2 (proj2 (createExpressApp_rate_limit_iff_positive
                                MoreSamples.hourly JUndefined
                                MoreSamples.secured)))).
  - simpl. do 5 right. left. reflexivity.
  - reflexivity.
Defined.

End NLUAppProofs.

(** ** The training widget: further properties *)

Module TrainNowMoreProofs.
Import TrainNow TrainNowSpec.

Lemma run_append (s : State) (l1 l2 : list Action) :
  run s (l1 ++ l2) = run (run s l1) l2.
Proof.
  revert s. induction l1 as [|a rest IH]; intros s; simpl; [reflexivity|].
  apply IH.
Qed.

(** An action that is not a resetting event keeps a set [cancelling]. *)
Lemma step_keeps_cancelling (s : State) (a : Action) :
  resetting a = false -> cancelling s = true ->
  cancelling (fst (step s a)) = true.
Proof.
  destruct a as [| b | | | | event]; simpl; intros Hr Hc; try assumption;
    try reflexivity.
  rewrite Hr. exact Hc.
Qed.

Lemma run_keeps_cancelling (l : list Action) (s : State) :
  forallb (fun a => negb (resetting a)) l = true ->
  cancelling s = true ->
  cancelling (run s l) = true.
Proof.
  revert s. induction l as [|a rest IH]; intros s; simpl; [auto|].
  intros H Hc. apply andb_prop in H. destruct H as [Ha Hrest].
  apply Bool.negb_true_iff in Ha.
  apply IH; [assumption | now apply step_keeps_cancelling].
Qed.

(** X16.  An event on the status bar never switches the component to
    training, never sets [cancelling], never touches [loading] and sends no
    request; unless it is an NLU event whose session is done or canceled,
    it changes nothing at all. *)
Theorem statusbar_event_only_resets (s : State) (event : StatusbarEvent) :
  loading (fst (step s (Statusbar event))) = loading s
  /\ (training (fst (step s (Statusbar event))) = true -> training s = true)
  /\ (cancelling (fst (step s (Statusbar event))) = true -> cancelling s = true)
  /\ snd (step s (Statusbar event)) = []
  /\ (type event <> "nlu"
      \/ (status (trainSession event) <> "done"
          /\ status (trainSession event) <> "canceled") ->
      fst (step s (Statusbar event)) = s).
Proof.
  simpl. unfold isDoneOrCancelled.
  destruct (String.eqb_spec (type event) "nlu") as [Ht|Ht];
    destruct (String.eqb_spec (status (trainSession event)) "done") as [Hd|Hd];
    destruct (String.eqb_spec (status (trainSession event)) "canceled") as [Hc|Hc];
    simpl; repeat split; try discriminate; try tauto;
    intros [H | [H1 H2]]; try reflexivity; contradiction.
Qed.

Lemma statusbar_event_only_resets_witness :
  fst (step initial (Statusbar (WidgetSamples.nluEvent "training"))) = initial.
Proof.
  apply (proj2 (proj2 (proj2 (proj2
           (statusbar_event_only_resets initial
              (WidgetSamples.nluEvent "training")))))).
  right. split; discriminate.
Defined.

(** X17.  Once [cancelling] is set it stays set through every action that
    is not an NLU event with a done or canceled session; whenever the
    component is in training during that time, its cancel button is
    disabled. *)
Theorem cancelling_stays_until_reset
    (autoTrain : bool) (s : State) (l : list Action) :
  cancelling s = true ->
  forallb (fun a => negb (resetting a)) l = true ->
  cancelling (run s l) = true
  /\ (training (run s l) = true ->
      onClick (render autoTrain (run s l)) = cancelTraining
      /\ disabled (render autoTrain (run s l)) = Some true).
Proof.
  intros Hc Hl. pose proof (run_keeps_cancelling l s Hl Hc) as Hrun.
  split; [exact Hrun|]. intros Ht. unfold render. rewrite Ht. simpl.
  rewrite Hrun. split; reflexivity.
Qed.

Lemma cancelling_stays_until_reset_witness :
  cancelling (run (fst (step initial CancelResolved))
                [TrainNowClicked; Statusbar (WidgetSamples.nluEvent "training");
                 Mounted; IsTrainingResolved true]) = true.
Proof.
  exact (proj1 (cancelling_stays_until_reset true
                  (fst (step initial CancelResolved))
                  [TrainNowClicked; Statusbar (WidgetSamples.nluEvent "training");
                   Mounted; IsTrainingResolved true]
                  eq_refl eq_refl)).
Defined.

(** X18.  When the request to cancel resolves only after the done or
    canceled event was seen, [cancelling] is set again after the reset;
    the next [trainNow], with no such event in between, then renders a
    cancel button that is disabled. *)
Theorem late_cancel_disables_next_cancel
    (autoTrain : bool) (s : State) (event : StatusbarEvent)
    (between : list Action) :
  resetting (Statusbar event) = true ->
  forallb (fun a => negb (resetting a)) between = true ->
  let s' := run s ([Statusbar event; CancelResolved] ++ between
                     ++ [TrainNowClicked]) in
  training s' = true
  /\ onClick (render autoTrain s') = cancelTraining
  /\ disabled (render autoTrain s') = Some true.
Proof.
  intros Hr Hb s'. subst s'.
  rewrite run_append, run_append.
  set (s1 := run s [Statusbar event; CancelResolved]).
  assert (Hc : cancelling (run s1 between) = true).
  { apply run_keeps_cancelling; [assumption | reflexivity]. }
  simpl. unfold render. simpl. rewrite Hc. repeat split.
Qed.

Lemma late_cancel_disables_next_cancel_witness :
  let s' := run (fst (step initial TrainNowClicked))
              ([Statusbar (WidgetSamples.nluEvent "canceled"); CancelResolved]
                 ++ [] ++ [TrainNowClicked]) in
  training s' = true
  /\ onClick (render false s') = cancelTraining
  /\ disabled (render false s') = Some true.
Proof.
  exact (late_cancel_disables_next_cancel false
           (fst (step initial TrainNowClicked))
           (WidgetSamples.nluEvent "canceled") [] eq_refl eq_refl).
Defined.

End TrainNowMoreProofs.

(** ** The dropdown: proofs *)

Module DropdownProofs.
Import Dropdown.

(** X19.  Selecting an item calls [onChange] at most once, with the item
    selected and as the last thing done: it is called when no confirmation
    is asked for or the dialog was accepted, and not called when the dialog
    was declined or its promise rejected. *)
Theorem onItemSelect_changes_iff_confirmed
    (confirmChange : option ConfirmChange) (answer : result bool)
    (item : Option) :
  (confirmChange = None \/ answer = Ok true ->
   filter isOnChange (snd (onItemSelect confirmChange answer item))
     = [OnChangeCalled item]
   /\ last (snd (onItemSelect confirmChange answer item)) (CallbackCalled true)
      = OnChangeCalled item
   /\ fst (onItemSelect confirmChange answer item) = Ok tt)
  /\ (confirmChange <> None -> answer <> Ok true ->
      filter isOnChange (snd (onItemSelect confirmChange answer item)) = []).
Proof.
  unfold onItemSelect, notify. split.
  - intros [-> | ->]; [repeat split|].
    destruct confirmChange as [c|]; [|repeat split].
    destruct (callback c); simpl; repeat split.
  - intros Hc Ha. destruct confirmChange as [c|]; [|contradiction].
    destruct answer as [[|]|e]; [contradiction| |];
      destruct (callback c); reflexivity.
Qed.

Lemma onItemSelect_changes_iff_confirmed_witness :
  filter isOnChange
    (snd (onItemSelect (Some MoreSamples.confirm) (Ok false) MoreSamples.french))
  = [].
Proof.
  apply (proj2 (onItemSelect_changes_iff_confirmed (Some MoreSamples.confirm)
                  (Ok false) MoreSamples.french)); discriminate.
Defined.

(** X20.  With a confirmation that has a callback, the callback is called
    with [true] before the dialog opens and with [false] once the dialog is
    answered, whichever the answer, and before [onChange]; when the promise
    of the dialog rejects, the callback is not called with [false] and the
    rejection goes on to the caller.  Without a callback, the dialog opens
    first. *)
Theorem onItemSelect_brackets_dialog
    (c : ConfirmChange) (answer : result bool) (item : Option) :
  (callback c = true ->
   (forall b, answer = Ok b ->
      firstn 3 (snd (onItemSelect (Some c) answer item))
      = [CallbackCalled true;
         ConfirmDialogOpened (message c) (acceptLabel c);
         CallbackCalled false])
   /\ (forall e, answer = Throw e ->
         onItemSelect (Some c) answer item
         = (Throw e, [CallbackCalled true;
                      ConfirmDialogOpened (message c) (acceptLabel c)])))
  /\ (callback c = false ->
      hd_error (snd (onItemSelect (Some c) answer item))
      = Some (ConfirmDialogOpened (message c) (acceptLabel c))
      /\ forall b, ~ In (CallbackCalled b) (snd (onItemSelect (Some c) answer item))).
Proof.
  unfold onItemSelect, notify. split; intros ->.
  - split.
    + intros b ->. destruct b; reflexivity.
    + intros e ->. reflexivity.
  - destruct answer as [[|]|e]; simpl; (split; [reflexivity|]);
      intros b H; repeat (destruct H as [H | H]; try discriminate H);
      contradiction.
Qed.

Lemma onItemSelect_brackets_dialog_witness :
  firstn 3 (snd (onItemSelect (Some MoreSamples.confirm) (Ok true)
                   MoreSamples.french))
  = [CallbackCalled true;
     ConfirmDialogOpened "Change the language?" (Some "Change");
     CallbackCalled false].
Proof.
  exact (proj1 (proj1 (onItemSelect_brackets_dialog MoreSamples.confirm
                         (Ok true) MoreSamples.french) eq_refl)
           true eq_refl).
Defined.






Lemma lowerChar_idempotent (c : ascii) : lowerChar (lowerChar c) = lowerChar c.
Proof. destruct c as [[] [] [] [] [] [] [] []]; reflexivity. Qed.

Lemma toLowerCase_idempotent (s : string) :
  toLowerCase (toLowerCase s) = toLowerCase s.
Proof.
  induction s as [|c rest IH]; simpl; [reflexivity|].
  now rewrite lowerChar_idempotent, IH.
Qed.

Lemma toLowerCase_append (a b : string) :
  toLowerCase (a ++ b) = toLowerCase a ++ toLowerCase b.
Proof. induction a as [|c rest IH]; simpl; [reflexivity | now rewrite IH]. Qed.

(** An upper-case letter and the character 32 places on have the same
    lower case. *)
Lemma lowerChar_upper (c : ascii) :
  isUpper c = true ->
  lowerChar (ascii_of_nat (nat_of_ascii c + 32)) = lowerChar c.
Proof.
  destruct c as [[] [] [] [] [] [] [] []]; intros H;
    try discriminate H; reflexivity.
Qed.

Lemma sameLetter_lowerChar (c d : ascii) :
  sameLetter c d = true -> lowerChar c = lowerChar d.
Proof.
  unfold sameLetter. intros H.
  apply Bool.orb_true_iff in H. destruct H as [H | H].
  - apply Bool.orb_true_iff in H. destruct H as [H | H].
    + apply Ascii.eqb_eq in H. now subst.
    + apply andb_prop in H. destruct H as [Hu He].
      apply Ascii.eqb_eq in He. subst d. symmetry. now apply lowerChar_upper.
  - apply andb_prop in H. destruct H as [Hu He].
    apply Ascii.eqb_eq in He. subst c. now apply lowerChar_upper.
Qed.

Lemma sameLetters_toLowerCase (s t : string) :
  sameLetters s t = true -> toLowerCase s = toLowerCase t.
Proof.
  revert t. induction s as [|c s' IH]; intros [|d t']; simpl;
    try discriminate; [reflexivity|].
  intros H. apply andb_prop in H. destruct H as [Hc Hs].
  now rewrite (sameLetter_lowerChar c d Hc), (IH t' Hs).
Qed.

Lemma prefix_append (p x : string) : String.prefix p (p ++ x) = true.
Proof.
  induction p as [|c rest IH]; simpl.
  - destruct x; reflexivity.
  - destruct (ascii_dec c c) as [_|Hne]; [exact IH | now elim Hne].
Qed.

Lemma occursIn_leading (p x : string) : occursIn p (p ++ x) = true.
Proof.
  unfold occursIn. pose proof (prefix_append p x) as Hp.
  destruct (p ++ x) as [|b rest] eqn:E.
  - destruct p; [reflexivity | discriminate E].
  - simpl. unfold String.prefix in Hp. fold String.prefix in Hp.
    simpl in Hp. rewrite Hp. reflexivity.
Qed.

(** X22.  The filter of the dropdown, for an ASCII query and an ASCII
    label: the empty query keeps every option; the query and its
    lower-cased form filter alike; and a query that spells the beginning of
    the label, each letter in either case (as 'ENG' does for 'English'),
    keeps the option, whatever the value of the option. *)
Theorem filterOptions_ignores_case
    (ToString : jsval -> string) (query : string) (item : Option) :
  isAscii query = true ->
  isAscii (label item) = true ->
  filterOptions ToString EmptyString item = true
  /\ filterOptions ToString (toLowerCase query) item
     = filterOptions ToString query item
  /\ (forall start rest,
        label item = start ++ rest ->
        sameLetters start query = true ->
        filterOptions ToString query item = true).
Proof.
  intros _ _. unfold filterOptions. split; [|split].
  - apply (occursIn_leading EmptyString).
  - now rewrite toLowerCase_idempotent.
  - intros start rest Hl Hs. apply sameLetters_toLowerCase in Hs.
    rewrite Hl, toLowerCase_append, Hs, CarouselUrlProofs.append_assoc.
    apply occursIn_leading.
Qed.

Lemma filterOptions_ignores_case_witness :
  filterOptions MoreSamples.sampleToString "ENG" MoreSamples.english = true.
Proof.
  exact (proj2 (proj2 (filterOptions_ignores_case MoreSamples.sampleToString
                         "ENG" MoreSamples.english eq_refl eq_refl))
           "Eng" "lish" eq_refl eq_refl).
Defined.

End DropdownProofs.
